(** * Taxi-Scout: order matching and notification de-duplication

    A shallow embedding of the order pipeline of the bot
    (price extraction, city validation, route keys, fleet-wide
    de-duplication, driver matching, notification coordination) and the
    properties of it that the specification states.

    Conventions.
    - A Python [str] is a list of Unicode code points ([pystr]).
    - A Python [int] is a [Z]; [Optional[T]] is [option T].
    - A Python [float] that is only compared is a [Q].
    - A [datetime] is a [Z] counting microseconds.
    - Tables of the relational store are lists of rows in insertion order.
    - What the program takes from outside the repository (the Unicode
      database behind [str.lower], [\d] and [re.IGNORECASE], the geocoder,
      the clock, the bot callbacks, [src.config]) is a parameter. *)

From Stdlib Require Import String Ascii.
From Stdlib Require Import ZArith NArith QArith List Bool Lia Permutation.
Import ListNotations.
Close Scope Q_scope.

Set Implicit Arguments.

(* ================================================================== *)
(** * Python strings *)
(* ================================================================== *)

Module Py.

Definition cp := N.
Bind Scope N_scope with cp.
Definition pystr := list cp.

(** Decoder for UTF-8 literals, so that the Cyrillic constants of the
    source can be written as they are. [need] continuation bytes are
    still missing for the code point accumulated in [acc]. *)
Fixpoint utf8_decode (bs : list N) (acc : N) (need : nat) : pystr :=
  match bs with
  | [] => []
  | b :: bs' =>
      match need with
      | O =>
          if (b <? 128)%N then b :: utf8_decode bs' 0%N 0
          else if (b <? 224)%N then utf8_decode bs' (b - 192)%N 1
          else if (b <? 240)%N then utf8_decode bs' (b - 224)%N 2
          else utf8_decode bs' (b - 240)%N 3
      | S O => (acc * 64 + (b - 128))%N :: utf8_decode bs' 0%N 0
      | S n => utf8_decode bs' (acc * 64 + (b - 128))%N n
      end
  end.

Definition u8 (s : string) : pystr :=
  utf8_decode (map N_of_ascii (list_ascii_of_string s)) 0%N 0.

Definition cp_eqb : cp -> cp -> bool := N.eqb.

Fixpoint str_eqb (a b : pystr) : bool :=
  match a, b with
  | [], [] => true
  | x :: a', y :: b' => cp_eqb x y && str_eqb a' b'
  | _, _ => false
  end.

(** [x in xs] for a list or set of strings. *)
Definition str_in (x : pystr) (xs : list pystr) : bool :=
  existsb (str_eqb x) xs.

(** Comparison of strings is lexicographic on code points. *)
Fixpoint str_leb (a b : pystr) : bool :=
  match a, b with
  | [], _ => true
  | _ :: _, [] => false
  | x :: a', y :: b' =>
      if (x <? y)%N then true
      else if (y <? x)%N then false
      else str_leb a' b'
  end.

(** [Py_UNICODE_ISSPACE]: the characters that [str.strip], [str.isspace]
    and the class [\s] of [re] treat as white space. *)
Definition isspace (c : cp) : bool :=
  ((9 <=? c) && (c <=? 13) || (28 <=? c) && (c <=? 32) ||
   (c =? 133) || (c =? 160) || (c =? 5760) ||
   (8192 <=? c) && (c <=? 8202) || (c =? 8232) || (c =? 8233) ||
   (c =? 8239) || (c =? 8287) || (c =? 12288))%N.

Fixpoint lstrip (s : pystr) : pystr :=
  match s with
  | [] => []
  | c :: s' => if isspace c then lstrip s' else s
  end.

Definition strip (s : pystr) : pystr := rev (lstrip (rev (lstrip s))).

(** [str(n)] for an [int]. *)
Fixpoint digits_of_pos (fuel : nat) (n : N) (acc : pystr) : pystr :=
  match fuel with
  | O => acc
  | S f =>
      let acc' := (48 + n mod 10)%N :: acc in
      if (n <? 10)%N then acc' else digits_of_pos f (n / 10)%N acc'
  end.

Definition str_of_int (z : Z) : pystr :=
  let n := Z.abs_N z in
  let ds := digits_of_pos (S (N.to_nat (N.log2 n))) n [] in
  if (z <? 0)%Z then 45%N :: ds else ds.

(** The part of the Unicode character database the program goes through.
    It belongs to the interpreter, not to the repository, and changes with
    its version, so it is an interface; the laws are the few facts about
    it the proofs use. *)
Class Unicode := {
  (** value of a decimal digit (category Nd): the class [\d] and [int()] *)
  decimal : cp -> option Z;
  (** [str.isdigit] on one character *)
  chr_isdigit : cp -> bool;
  (** the class [\w]: alphanumeric or underscore *)
  chr_isword : cp -> bool;
  (** comparison of a pattern character with a text character under
      [re.IGNORECASE] *)
  chr_ieq : cp -> cp -> bool;
  (** [str.lower] *)
  lower : pystr -> pystr;

  decimal_ascii : forall c, (c < 128)%N ->
    decimal c = if ((48 <=? c) && (c <=? 57))%N
                then Some (Z.of_N c - 48)%Z else None;
  decimal_not_space : forall c v, decimal c = Some v -> isspace c = false;
  lower_nil : lower [] = []
}.

(** The database restricted to Basic Latin and Russian Cyrillic, for
    running the definitions on messages written in those alphabets. *)
Definition lower_cp (c : cp) : cp :=
  if ((65 <=? c) && (c <=? 90))%N then (c + 32)%N
  else if ((1040 <=? c) && (c <=? 1071))%N then (c + 32)%N
  else if ((1024 <=? c) && (c <=? 1039))%N then (c + 80)%N
  else c.

Definition ascii_decimal (c : cp) : option Z :=
  if ((48 <=? c) && (c <=? 57))%N then Some (Z.of_N c - 48)%Z else None.

Definition basic_isword (c : cp) : bool :=
  ((48 <=? c) && (c <=? 57) || (65 <=? c) && (c <=? 90) ||
   (97 <=? c) && (c <=? 122) || (c =? 95) ||
   (1024 <=? c) && (c <=? 1119))%N.

#[export] Program Instance basic_unicode : Unicode := {|
  decimal := ascii_decimal;
  chr_isdigit := fun c => ((48 <=? c) && (c <=? 57))%N;
  chr_isword := basic_isword;
  chr_ieq := fun p c => cp_eqb (lower_cp p) (lower_cp c);
  lower := map lower_cp
|}.
Next Obligation.
  unfold ascii_decimal, isspace in *.
  destruct ((48 <=? c) && (c <=? 57))%N eqn:E; [|discriminate].
  apply andb_true_iff in E. destruct E as [E1 E2].
  apply N.leb_le in E1. apply N.leb_le in E2.
  repeat match goal with
         | |- context [(?a <=? ?b)%N] => destruct (N.leb_spec a b); try lia
         | |- context [(?a =? ?b)%N] => destruct (N.eqb_spec a b); try lia
         end; reflexivity.
Qed.

End Py.
Import Py.

(* ================================================================== *)
(** * The fragment of Python's [re] the program uses *)
(* ================================================================== *)

(** [re] is a backtracking matcher: alternatives are tried left to right,
    quantifiers are greedy and give back one repetition at a time, and the
    first complete match found wins. The matcher below is written in
    continuation-passing style so that this order of attempts is explicit. *)

Module Re.

(** Single-character tests. *)
Inductive cls :=
| Digit                      (* \d *)
| Space                      (* \s *)
| Lit (c : cp)               (* a literal character *)
| ILit (c : cp)              (* a literal character under IGNORECASE *)
| Or (c1 c2 : cls).          (* a set [...] of several of these *)

Inductive re :=
| Eps                        (* the empty pattern *)
| Chr (c : cls)
| Seq (r1 r2 : re)
| Alt (r1 r2 : re)           (* r1|r2 *)
| Opt (r : re)               (* r?  *)
| Star (r : re)              (* r*  *)
| Rep (lo extra : nat) (r : re)   (* r{lo,lo+extra} *)
| Grp (i : nat) (r : re)     (* capturing group number i *)
| Bol                        (* ^ without MULTILINE *)
| Eol                        (* $ without MULTILINE *)
| WordB                      (* \b *)
| NotBehind (c : cls)        (* (?<!c) *)
| NotAhead (c : cls).        (* (?!c) *)

(** Matcher state: the text already passed (most recent character first),
    the text still ahead, and the groups captured so far. *)
Record st := mkSt {
  before : pystr;
  rest : pystr;
  caps : list (nat * pystr)
}.

Fixpoint cat (rs : list re) : re :=
  match rs with
  | [] => Eps
  | [r] => r
  | r :: rs' => Seq r (cat rs')
  end.

Fixpoint alts (r : re) (rs : list re) : re :=
  match rs with
  | [] => r
  | r' :: rs' => Alt r (alts r' rs')
  end.

Definition str (s : pystr) : re := cat (map (fun c => Chr (Lit c)) s).

Fixpoint group (i : nat) (cs : list (nat * pystr)) : option pystr :=
  match cs with
  | [] => None
  | (j, s) :: cs' => if Nat.eqb i j then Some s else group i cs'
  end.

Section Matcher.
Context {U : Unicode}.

Fixpoint test (c : cls) (x : cp) : bool :=
  match c with
  | Digit => match decimal x with Some _ => true | None => false end
  | Space => isspace x
  | Lit y => cp_eqb y x
  | ILit y => chr_ieq y x
  | Or c1 c2 => test c1 x || test c2 x
  end.

Definition head_is (p : cp -> bool) (s : pystr) : bool :=
  match s with
  | x :: _ => p x
  | [] => false
  end.

Definition advance (s : st) (x : cp) (tl : pystr) : st :=
  mkSt (x :: before s) tl (caps s).

Definition consumed (s s' : st) : pystr :=
  firstn (length (rest s) - length (rest s')) (rest s).

(** The loops of the quantifiers, over the matcher [step] of the repeated
    pattern. [rep_must] runs the [n] repetitions that are required and
    [rep_may] up to [e] more, trying one more before trying none. *)
Fixpoint rep_may (step : st -> (st -> option st) -> option st)
    (k : st -> option st) (e : nat) (s : st) {struct e} : option st :=
  match e with
  | O => k s
  | S e' =>
      match step s (rep_may step k e') with
      | Some found => Some found
      | None => k s
      end
  end.

Fixpoint rep_must (step : st -> (st -> option st) -> option st)
    (k : st -> option st) (n e : nat) (s : st) {struct n} : option st :=
  match n with
  | S n' => step s (rep_must step k n' e)
  | O => rep_may step k e s
  end.

(** [r*]: as many repetitions as the text gives, each taking at least one
    character, so never more than there are characters ahead. *)
Fixpoint star_loop (step : st -> (st -> option st) -> option st)
    (k : st -> option st) (fuel : nat) (s : st) {struct fuel} : option st :=
  match fuel with
  | O => k s
  | S fuel' =>
      match step s (fun s1 =>
              if (List.length (rest s1) <? List.length (rest s))%nat
              then star_loop step k fuel' s1 else None) with
      | Some found => Some found
      | None => k s
      end
  end.

Fixpoint m (r : re) (s : st) (k : st -> option st) {struct r} : option st :=
  match r with
  | Eps => k s
  | Chr c =>
      match rest s with
      | x :: tl => if test c x then k (advance s x tl) else None
      | [] => None
      end
  | Seq r1 r2 => m r1 s (fun s1 => m r2 s1 k)
  | Alt r1 r2 =>
      match m r1 s k with
      | Some found => Some found
      | None => m r2 s k
      end
  | Opt r1 =>
      match m r1 s k with
      | Some found => Some found
      | None => k s
      end
  | Star r1 => star_loop (m r1) k (List.length (rest s)) s
  | Rep lo extra r1 => rep_must (m r1) k lo extra s
  | Grp i r1 =>
      m r1 s (fun s1 =>
        k (mkSt (before s1) (rest s1) ((i, consumed s s1) :: caps s1)))
  | Bol => match before s with [] => k s | _ :: _ => None end
  | Eol =>
      match rest s with
      | [] => k s
      | [x] => if cp_eqb x 10%N then k s else None
      | _ => None
      end
  | WordB =>
      if xorb (head_is chr_isword (before s)) (head_is chr_isword (rest s))
      then k s else None
  | NotBehind c => if head_is (test c) (before s) then None else k s
  | NotAhead c => if head_is (test c) (rest s) then None else k s
  end.

(** One attempt at the position the state is at. *)
Definition match_here (r : re) (bef txt : pystr) : option st :=
  m r (mkSt bef txt []) Some.

(** Number of characters a match at this position takes. *)
Definition match_len (r : re) (bef txt : pystr) : option nat :=
  match match_here r bef txt with
  | Some e => Some (length txt - length (rest e))%nat
  | None => None
  end.



(** [re.match]: one attempt, at the start. *)
Definition match_ (r : re) (txt : pystr) : option st := match_here r [] txt.

(** [re.sub(r, '', txt)]: every match found from the left is deleted and
    the scan resumes behind it. [skip] characters of the match just found
    are still to be dropped. A match of no character deletes nothing. *)
Fixpoint delete_from (r : re) (skip : nat) (bef txt : pystr) : pystr :=
  match txt with
  | [] => []
  | x :: tl =>
      match skip with
      | S n => delete_from r n (x :: bef) tl
      | O =>
          match match_len r bef txt with
          | Some (S n) => delete_from r n (x :: bef) tl
          | _ => x :: delete_from r 0 (x :: bef) tl
          end
      end
  end.

Definition sub_delete (r : re) (txt : pystr) : pystr := delete_from r 0 [] txt.



End Matcher.
End Re.
Import Re.

(* ================================================================== *)
(** * src/utils/geo.py: [extract_price_from_text] *)
(* ================================================================== *)

Module Price.

Definition digit : re := Chr Digit.
Definition spaces : re := Star (Chr Space).
Definition lit (s : string) : re := str (u8 s).

(** [\d{1,2}[\.\/]\d{1,2}[\.\/]\d{2,4}] *)
Definition date_re : re :=
  cat [ Rep 1 1 digit; Chr (Or (Lit 46) (Lit 47));
        Rep 1 1 digit; Chr (Or (Lit 46) (Lit 47));
        Rep 2 2 digit ].

(** [\d{1,2}\s*:\s*\d{2}] *)
Definition time_re : re :=
  cat [ Rep 1 1 digit; spaces; Chr (Lit 58); spaces; Rep 2 0 digit ].

(** [(?:8|7|\+7)[\s\-]?\(?\d{3}\)?[\s\-]?\d{3}[\s\-]?\d{2}[\s\-]?\d{2}] *)
Definition phone_sep : re := Opt (Chr (Or Space (Lit 45))).

Definition phone_re : re :=
  cat [ alts (lit "8") [lit "7"; lit "+7"];
        phone_sep; Opt (Chr (Lit 40)); Rep 3 0 digit; Opt (Chr (Lit 41));
        phone_sep; Rep 3 0 digit;
        phone_sep; Rep 2 0 digit;
        phone_sep; Rep 2 0 digit ].





Section Extract.
Context {U : Unicode}.

(** The three [re.sub] calls that open the function. *)
Definition text_clean (text : pystr) : pystr :=
  sub_delete phone_re (sub_delete time_re (sub_delete date_re text)).








End Extract.
End Price.

Import Price.

(* ================================================================== *)
(** * src/utils/geo.py: [get_coordinates] *)
(* ================================================================== *)

Module Geo.

Definition Coords : Type := (Q * Q)%type.

Open Scope string_scope.
Open Scope Q_scope.
Definition KNOWN_COORDINATES_src : list (string * Coords) :=
  [
    ("солнечная долина", (550344 # 10000, 600878 # 10000));
    ("завьялиха", (550267 # 10000, 599567 # 10000));
    ("банное", (535983 # 10000, 586317 # 10000));
    ("абзаково", (538000 # 10000, 586167 # 10000));
    ("металлург-магнитогорск", (538033 # 10000, 586200 # 10000));
    ("аджигардак", (549500 # 10000, 587833 # 10000));
    ("гора белая", (576500 # 10000, 595667 # 10000));
    ("гора ежовая", (573000 # 10000, 597000 # 10000));
    ("уктус", (567833 # 10000, 606167 # 10000));
    ("роза хутор", (436572 # 10000, 402971 # 10000));
    ("красная поляна", (436833 # 10000, 402000 # 10000));
    ("газпром", (436889 # 10000, 402667 # 10000));
    ("горки город", (436600 # 10000, 402700 # 10000));
    ("альпика", (436850 # 10000, 402750 # 10000));
    ("шерегеш", (529333 # 10000, 879833 # 10000));
    ("гладенькая", (533000 # 10000, 915000 # 10000));
    ("бобровый лог", (559667 # 10000, 927667 # 10000));
    ("манжерок", (518167 # 10000, 857833 # 10000));
    ("белокуриха", (519833 # 10000, 849833 # 10000));
    ("архыз", (435500 # 10000, 412833 # 10000));
    ("теберда", (434500 # 10000, 417333 # 10000));
    ("домбай", (432903 # 10000, 416506 # 10000));
    ("эльбрус", (434167 # 10000, 425000 # 10000));
    ("аэропорт челябинска", (553000 # 10000, 615000 # 10000));
    ("баландино", (553000 # 10000, 615000 # 10000));
    ("кольцово", (567500 # 10000, 608000 # 10000));
    ("аэропорт екатеринбурга", (567500 # 10000, 608000 # 10000));
    ("богучар", (499324 # 10000, 405545 # 10000));
    ("россошь", (501983 # 10000, 395706 # 10000));
    ("валуйки", (502136 # 10000, 380989 # 10000));
    ("шебекино", (504067 # 10000, 368933 # 10000));
    ("острогожск", (508617 # 10000, 390600 # 10000));
    ("марковка", (494511 # 10000, 396083 # 10000));
    ("бугаевка", (497833 # 10000, 398500 # 10000));
    ("энем", (449231 # 10000, 389071 # 10000));
    ("раевская", (448354 # 10000, 375493 # 10000));
    ("бесскорбная", (451333 # 10000, 410833 # 10000));
    ("ростов на дону", (472222 # 10000, 397198 # 10000));
    ("обнинск", (550968 # 10000, 366106 # 10000));
    ("смоленск", (547826 # 10000, 320453 # 10000));
    ("минск", (539006 # 10000, 275590 # 10000));
    ("бердянск", (467558 # 10000, 367989 # 10000));
    ("мелитополь", (468489 # 10000, 353653 # 10000));
    ("энергодар", (474989 # 10000, 346567 # 10000));
    ("токмак", (472553 # 10000, 357058 # 10000));
    ("пологи", (474833 # 10000, 362500 # 10000));
    ("херсон", (466354 # 10000, 326169 # 10000));
    ("новая каховка", (467556 # 10000, 333478 # 10000));
    ("каховка", (468167 # 10000, 334833 # 10000));
    ("геническ", (461750 # 10000, 348167 # 10000));
    ("скадовск", (461167 # 10000, 329167 # 10000));
    ("санаторий танып", (559667 # 10000, 568333 # 10000));
    ("танып", (559667 # 10000, 568333 # 10000));
    ("тула", (541961 # 10000, 376182 # 10000));
    ("курск", (517373 # 10000, 361874 # 10000));
    ("набережные челны", (557167 # 10000, 524167 # 10000));
    ("челны", (557167 # 10000, 524167 # 10000));
    ("н.челны", (557167 # 10000, 524167 # 10000));
    ("нч", (557167 # 10000, 524167 # 10000));
    ("казань", (557887 # 10000, 491221 # 10000));
    ("уфа", (547431 # 10000, 559678 # 10000));
    ("самара", (531959 # 10000, 501002 # 10000));
    ("пермь", (580105 # 10000, 562502 # 10000));
    ("оренбург", (517727 # 10000, 550988 # 10000));
    ("ижевск", (568527 # 10000, 532114 # 10000));
    ("саратов", (515336 # 10000, 460343 # 10000));
    ("ульяновск", (543142 # 10000, 484031 # 10000));
    ("пенза", (531959 # 10000, 450183 # 10000)) ].
Close Scope Q_scope.
Close Scope string_scope.

Definition KNOWN_COORDINATES : list (pystr * Coords) :=
  Eval vm_compute in map (fun e => (u8 (fst e), snd e)) KNOWN_COORDINATES_src.

(** A [dict] with string keys, as an association list. *)
Fixpoint dict_get {V : Type} (d : list (pystr * V)) (key : pystr) : option V :=
  match d with
  | [] => None
  | (k, v) :: d' => if str_eqb key k then Some v else dict_get d' key
  end.

Definition dict_has {V : Type} (d : list (pystr * V)) (key : pystr) : bool :=
  match dict_get d key with Some _ => true | None => false end.

Definition dict_set {V : Type} (d : list (pystr * V)) (key : pystr) (v : V)
  : list (pystr * V) :=
  (key, v) :: filter (fun e => negb (str_eqb key (fst e))) d.

(** What the call [geolocator.geocode(query)] does: a location, nothing,
    or an exception. *)
Inductive GeocodeResult :=
| Located (c : Coords)
| NotFound
| Failed.

Section GetCoordinates.
Context {U : Unicode}.
(** The Nominatim client. *)
Variable geocode : pystr -> GeocodeResult.

(** [_geocode_cache] maps a name to the coordinates found for it, or to
    [None]. *)
Definition Cache := list (pystr * option Coords).

Definition get_coordinates (cache : Cache) (location_name : pystr)
  : option Coords * Cache :=
  match dict_get cache location_name with
  | Some cached => (cached, cache)
  | None =>
      let location_lower := strip (lower location_name) in
      match dict_get KNOWN_COORDINATES location_lower with
      | Some coords => (Some coords, dict_set cache location_name (Some coords))
      | None =>
          match geocode (location_name ++ u8 ", Россия") with
          | Located coords =>
              (Some coords, dict_set cache location_name (Some coords))
          | NotFound => (None, dict_set cache location_name None)
          | Failed => (None, cache)
          end
      end
  end.

End GetCoordinates.
End Geo.
Import Geo.

(* ================================================================== *)
(** * src/parser/order_parser.py: [is_valid_city_name] *)
(* ================================================================== *)

Module City.

Definition NOT_CITIES_src : list string :=
  ([
    "мин"; "час"; "чел"; "человек"; "человека"; "пассажир"; "пассажира";
    "пассажиров"; "руб"; "рубль"; "рублей"; "тыс"; "место"; "места";
    "багаж"; "багажа"; "сегодня"; "завтра"; "вчера"; "утро"; "день";
    "вечер"; "ночь"; "утром"; "вечером"; "днём"; "ночью"; "январь";
    "февраль"; "март"; "апрель"; "май"; "июнь"; "июль"; "август";
    "сентябрь"; "октябрь"; "ноябрь"; "декабрь"; "пн"; "вт"; "ср"; "чт";
    "пт"; "сб"; "вс"; "понедельник"; "вторник"; "среда"; "четверг";
    "пятница"; "суббота"; "воскресенье"; "срочно"; "свободно"; "занято";
    "закрыт"; "закрыто"; "открыт"; "открыто"; "такси"; "водитель";
    "машина"; "авто"; "автомобиль"; "междугороднее"; "межгород"; "цена";
    "стоимость"; "торг"; "договорная"; "договор"; "комфорт"; "эконом";
    "бизнес"; "премиум"; "детское"; "кресло"; "животное"; "питомец";
    "заказ"; "заявка"; "бронь"; "бронирование"; "туда"; "обратно";
    "попутно"; "нал"; "наличные"; "карта"; "перевод"; "оплата";
    "трансфер"; "нсфер"; "сфер"; "границ"; "без-границ"; "безграниц";
    "империя"; "премьер"; "минивен"; "отель"; "санкт"; "петербург";
    "россия"; "область"; "край"; "республика"; "округ"; "сибирское"; "жд";
    "аэропорт"; "вокзал"; "станция"; "остановка"; "стоимость"; "цена";
    "услуга"; "услуги"; "сервис" ])%string.

Definition NOT_CITIES : list pystr :=
  Eval vm_compute in map u8 NOT_CITIES_src.

(** [^\d] *)
Definition leading_digit_re : re := cat [ Bol; Chr Digit ].

(** [^[+-]?\d+([.,]\d+)?$] *)
Definition number_re : re :=
  cat [ Bol; Opt (Chr (Or (Lit 43) (Lit 45)));
        Seq (Chr Digit) (Star (Chr Digit));
        Opt (Grp 1 (cat [ Chr (Or (Lit 46) (Lit 44));
                          Seq (Chr Digit) (Star (Chr Digit)) ]));
        Eol ].

Section Validation.
Context {U : Unicode}.
Variable geocode : pystr -> GeocodeResult.
(** The tables of [src.config]. *)
Variable KNOWN_CITIES : list pystr.
Variable CITY_ALIASES : list (pystr * pystr).
Variable CITY_DECLENSIONS : list (pystr * pystr).

(** [str.isdigit] *)
Definition isdigit (s : pystr) : bool :=
  match s with
  | [] => false
  | _ => forallb chr_isdigit s
  end.

Definition is_match (o : option st) : bool :=
  match o with Some _ => true | None => false end.

Definition is_valid_city_name (cache : Cache) (name : pystr) : bool * Cache :=
  match name with
  | [] => (false, cache)
  | _ =>
      let name_lower := strip (lower name) in
      if (List.length name_lower <? 3)%nat then (false, cache)
      else if str_in name_lower NOT_CITIES then (false, cache)
      else if isdigit name_lower then (false, cache)
      else if is_match (match_ leading_digit_re name_lower) then (false, cache)
      else if is_match (match_ number_re name_lower) then (false, cache)
      else
        let known_cities_lower := map lower KNOWN_CITIES in
        if str_in name_lower known_cities_lower then (true, cache)
        else if dict_has CITY_ALIASES name_lower then (true, cache)
        else if dict_has CITY_DECLENSIONS name_lower then (true, cache)
        else
          match get_coordinates geocode cache name with
          | (Some _, cache') => (true, cache')
          | (None, cache') => (false, cache')
          end
  end.

End Validation.
End City.
Import City.

(* ================================================================== *)
(** * src/utils/database.py: [normalize_route_key] *)
(* ================================================================== *)

Module Route.
Section RouteKey.
Context {U : Unicode}.

Definition colon : cp := 58.

(** [point.strip().lower() if point else ""] *)
Definition normalize (point : pystr) : pystr :=
  match point with
  | [] => []
  | _ => lower (strip point)
  end.

Definition normalize_route_key (point_a point_b : pystr) : pystr :=
  normalize point_a ++ [colon] ++ normalize point_b.

End RouteKey.
End Route.
Import Route.

(* ================================================================== *)
(** * src/parser/order_parser.py: [ParsedOrder] *)
(* ================================================================== *)

Module Orders.

Record ParsedOrder := mkOrder {
  point_a : pystr;
  point_b : pystr;
  price : option Z;
  original_text : pystr;
  source_group : pystr;
  source_link : pystr;
  region : option pystr;
  point_a_coords : option Coords;
  point_b_coords : option Coords;
  timestamp : pystr;
  group_title : option pystr;
  source_group_id : option Z;
  message_id : option Z;
  author_id : option Z;
  author_username : option pystr;
  author_first_name : option pystr
}.

(** Truth value of an [Optional[int]], an [Optional[float]], a [str] and
    an [Optional[str]] in a condition. *)
Definition truthy (o : option Z) : bool :=
  match o with
  | Some z => negb (z =? 0)%Z
  | None => false
  end.

Definition truthy_float (o : option Q) : bool :=
  match o with
  | Some q => negb (Qeq_bool q 0)
  | None => false
  end.

Definition truthy_str (s : pystr) : bool :=
  match s with
  | [] => false
  | _ :: _ => true
  end.

Definition truthy_ostr (o : option pystr) : bool :=
  match o with
  | Some s => truthy_str s
  | None => false
  end.

(** [x or y] *)
Definition or_int (x : option Z) (y : Z) : Z :=
  match x with
  | Some z => if (z =? 0)%Z then y else z
  | None => y
  end.

Definition or_oint (x y : option Z) : option Z :=
  if truthy x then x else y.

Definition or_ostr (x y : option pystr) : option pystr :=
  if truthy_ostr x then x else y.

Definition opt_eqb (x y : option Z) : bool :=
  match x, y with
  | Some a, Some b => (a =? b)%Z
  | None, None => true
  | _, _ => false
  end.

End Orders.
Import Orders.

(* ================================================================== *)
(** * src/parser/multi_user_monitor.py: [MultiUserMonitor._handle_order] *)
(* ================================================================== *)

Module Monitor.

Definition slash : cp := 47.

(** [s.split('/')[-1]] *)
Fixpoint until_slash (s : pystr) : pystr :=
  match s with
  | [] => []
  | c :: s' => if cp_eqb c slash then [] else c :: until_slash s'
  end.

Definition last_segment (s : pystr) : pystr := rev (until_slash (rev s)).

(** The set [processed_orders]. Its members are kept in the order in which
    they were added, which the program cannot observe; the order in which
    [list(...)] enumerates them is that of the hash table and is the
    parameter [set_order]. [on_order_callback] tells whether a callback
    was given. *)
Record MultiUserMonitor := mkMonitor {
  processed_orders : list pystr;
  on_order_callback : bool
}.

(** [order.source_link.split('/')[-1] if order.source_link else "unknown"] *)
Definition link_tail (order : ParsedOrder) : pystr :=
  if truthy_str (source_link order)
  then last_segment (source_link order) else u8 "unknown".

Definition order_key (order : ParsedOrder) : pystr :=
  let group_id :=
    match source_group_id order with
    | Some g => if (g =? 0)%Z then source_group order else str_of_int g
    | None => source_group order
    end in
  let msg_id :=
    match message_id order with
    | Some i => if (i =? 0)%Z then link_tail order else str_of_int i
    | None => link_tail order
    end in
  group_id ++ u8 "_" ++ msg_id.

(** The bound on the set and the number of members dropped at once. *)
Definition capacity : nat := Z.to_nat 10000.
Definition dropped : nat := Z.to_nat 5000.

Section HandleOrder.
Variable set_order : list pystr -> list pystr.

Definition discard_all (old : list pystr) (s : list pystr) : list pystr :=
  filter (fun k => negb (str_in k old)) s.

(** The result is the monitor afterwards and the order handed to the
    callback, if one was. *)
Definition _handle_order (self : MultiUserMonitor) (order : ParsedOrder)
  : MultiUserMonitor * option ParsedOrder :=
  let key := order_key order in
  if str_in key (processed_orders self) then (self, None)
  else
    let added := processed_orders self ++ [key] in
    let kept :=
      if (capacity <? List.length added)%nat
      then discard_all (firstn dropped (set_order added)) added
      else added in
    (mkMonitor kept (on_order_callback self),
     if on_order_callback self then Some order else None).

(** A stream of orders reaching the dispatcher one after the other. *)
Fixpoint handle_all (self : MultiUserMonitor) (orders : list ParsedOrder)
  : MultiUserMonitor * list ParsedOrder :=
  match orders with
  | [] => (self, [])
  | o :: rest =>
      let '(self1, fwd) := _handle_order self o in
      let '(self2, fwds) := handle_all self1 rest in
      (self2, match fwd with Some x => x :: fwds | None => fwds end)
  end.

End HandleOrder.
End Monitor.
Import Monitor.

(* ================================================================== *)
(** * src/matcher.py: [find_matching_drivers], [check_driver_matches_order] *)
(* ================================================================== *)

Module Matcher.

(** The columns of [User] that matching reads. *)
Record User := mkUser {
  id : Z;
  telegram_id : Z;
  username : option pystr;
  first_name : option pystr;
  latitude : option Q;
  longitude : option Q;
  radius_km : option Z;
  min_price : option Z
}.

(** An entry of the list [find_matching_drivers] returns. *)
Record DriverInfo := mkInfo {
  info_telegram_id : Z;
  info_db_user_id : Z;
  info_username : option pystr;
  info_first_name : option pystr;
  info_latitude : option Q;
  info_longitude : option Q;
  info_radius_km : option Z;
  info_min_price : option Z;
  distance_to_order : Q
}.

Section Matching.
(** The roster queries of the store. *)
Variable get_users_subscribed_to_group : Z -> list User.
Variable get_active_users : list User.
(** [geodesic(a, b).kilometers], and [round(x, 1)] on floats. *)
Variable calculate_distance : Coords -> Coords -> Q.
Variable round1 : Q -> Q.
(** [int(s)] on a string; [None] stands for [ValueError]. *)
Variable int_of_str : pystr -> option Z.

Definition is_within_radius (driver_coords order_coords : Coords)
    (radius_km : Z) : bool :=
  let distance := calculate_distance driver_coords order_coords in
  Qle_bool distance (inject_Z radius_km).

Definition driver_info (driver : User) (distance : Q) : DriverInfo :=
  mkInfo (telegram_id driver) (id driver) (username driver)
         (first_name driver) (latitude driver) (longitude driver)
         (radius_km driver) (min_price driver) (round1 distance).

(** The body of the loop over the candidates: the entry appended for this
    driver, or [None] where the loop goes on to the next one. *)
Definition match_driver (order : ParsedOrder) (order_coords : Coords)
    (driver : User) : option DriverInfo :=
  match latitude driver, longitude driver with
  | Some lat, Some lon =>
      if negb (truthy_float (Some lat)) || negb (truthy_float (Some lon))
      then None
      else
        let driver_coords := (lat, lon) in
        let radius := or_int (radius_km driver) 50 in
        let min_price := or_int (min_price driver) 0 in
        let distance := calculate_distance driver_coords order_coords in
        let in_radius := is_within_radius driver_coords order_coords radius in
        if negb in_radius then None
        else if truthy (price order) && (min_price >? 0)%Z &&
                match price order with
                | Some p => (p <? min_price)%Z
                | None => false
                end
        then None
        else Some (driver_info driver distance)
  | _, _ => None
  end.

Fixpoint matches (order : ParsedOrder) (order_coords : Coords)
    (drivers : list User) : list DriverInfo :=
  match drivers with
  | [] => []
  | driver :: rest =>
      match match_driver order order_coords driver with
      | Some info => info :: matches order order_coords rest
      | None => matches order order_coords rest
      end
  end.

(** [list.sort(key=...)] is stable. *)
Fixpoint insert_sorted (x : DriverInfo) (l : list DriverInfo)
  : list DriverInfo :=
  match l with
  | [] => [x]
  | y :: l' =>
      if Qle_bool (distance_to_order x) (distance_to_order y)
      then x :: l else y :: insert_sorted x l'
  end.

Fixpoint sort_by_distance (l : list DriverInfo) : list DriverInfo :=
  match l with
  | [] => []
  | x :: l' => insert_sorted x (sort_by_distance l')
  end.

Definition candidates (order : ParsedOrder) (filter_by_group : bool)
  : list User :=
  if filter_by_group && truthy (source_group_id order) then
    match source_group_id order with
    | Some g => get_users_subscribed_to_group g
    | None => get_active_users
    end
  else if filter_by_group && truthy_str (source_group order) then
    match int_of_str (source_group order) with
    | Some group_id => get_users_subscribed_to_group group_id
    | None => get_active_users
    end
  else get_active_users.

Definition find_matching_drivers (order : ParsedOrder)
    (filter_by_group : bool) : list DriverInfo :=
  match point_a_coords order with
  | None => []
  | Some order_coords =>
      sort_by_distance
        (matches order order_coords (candidates order filter_by_group))
  end.


End Matching.
End Matcher.
Import Matcher.

(* ================================================================== *)
(** * src/utils/database.py: the notification store *)
(* ================================================================== *)

Module Store.

Record OrderNotification := mkNotification {
  on_id : Z;
  on_order_id : Z;
  on_user_id : Z;
  on_sent_at : Z;
  on_message_id : option Z;
  on_route_key : option pystr
}.

Record OrderGroupLink := mkLink {
  gl_id : Z;
  gl_route_key : pystr;
  gl_user_id : Z;
  gl_group_id : option Z;
  gl_group_title : pystr;
  gl_source_link : pystr;
  gl_message_id : option Z;
  gl_author_id : option Z;
  gl_author_username : option pystr;
  gl_author_first_name : option pystr;
  gl_created_at : Z
}.

Record DriverSettings := mkSettings {
  ds_user_id : Z;
  ds_quiet_hours_enabled : bool;
  ds_quiet_hours_start : pystr;
  ds_quiet_hours_end : pystr;
  ds_busy_until : option Z
}.

Record Blacklist := mkBlacklist {
  bl_user_id : Z;
  bl_block_type : pystr;
  bl_blocked_id : option Z
}.

(** The tables, each in insertion order. [engine] is false when
    [DATABASE_URL] is not set: then [get_session()] is [None] and every
    operation returns its default without touching anything. A commit is
    taken to go through. *)
Record DB := mkDB {
  engine : bool;
  order_notifications : list OrderNotification;
  order_group_links : list OrderGroupLink;
  driver_settings : list DriverSettings;
  blacklist : list Blacklist
}.

(** The moment of a call: [datetime.utcnow()] in microseconds, and the
    wall clock of the zone Europe/Moscow as ["%H:%M"]. *)
Record Clock := mkClock {
  utcnow : Z;
  moscow_hhmm : pystr
}.

Definition hours_us (hours : Z) : Z := (hours * 3600 * 1000000)%Z.

Definition next_id {A : Type} (table : list A) : Z :=
  Z.of_nat (S (List.length table)).

Definition save_order_notification (db : DB) (now : Clock)
    (order_id user_id : Z) (message_id : option Z) (route_key : option pystr)
  : DB * option OrderNotification :=
  if negb (engine db) then (db, None)
  else
    let notification :=
      mkNotification (next_id (order_notifications db)) order_id user_id
                     (utcnow now) message_id route_key in
    (mkDB (engine db) (order_notifications db ++ [notification])
          (order_group_links db) (driver_settings db) (blacklist db),
     Some notification).

(** The filter of [get_existing_notification]. *)
Definition recent (user_id : Z) (route_key : pystr) (cutoff : Z)
    (n : OrderNotification) : bool :=
  (on_user_id n =? user_id)%Z &&
  match on_route_key n with
  | Some k => str_eqb k route_key
  | None => false
  end &&
  match on_message_id n with
  | Some _ => true
  | None => false
  end &&
  (cutoff <=? on_sent_at n)%Z.

(** [order_by(sent_at.desc()).first()]: the latest row; among rows sent
    at the same instant, the one stored first. *)
Fixpoint latest (rows : list OrderNotification) (best : option OrderNotification)
  : option OrderNotification :=
  match rows with
  | [] => best
  | n :: rows' =>
      match best with
      | None => latest rows' (Some n)
      | Some b =>
          if (on_sent_at b <? on_sent_at n)%Z
          then latest rows' (Some n) else latest rows' best
      end
  end.

Definition get_existing_notification (db : DB) (now : Clock)
    (user_id : Z) (route_key : pystr) (hours : Z)
  : option OrderNotification :=
  if negb (engine db) then None
  else
    let cutoff := (utcnow now - hours_us hours)%Z in
    latest (filter (recent user_id route_key cutoff) (order_notifications db))
           None.

Definition same_link (route_key : pystr) (user_id : Z) (source_link : pystr)
    (l : OrderGroupLink) : bool :=
  str_eqb (gl_route_key l) route_key &&
  (gl_user_id l =? user_id)%Z &&
  str_eqb (gl_source_link l) source_link.

Definition add_order_group_link (db : DB) (now : Clock)
    (route_key : pystr) (user_id : Z) (group_id : option Z)
    (group_title : pystr) (source_link : pystr) (message_id : option Z)
    (author_id : option Z) (author_username author_first_name : option pystr)
  : DB * option OrderGroupLink :=
  if negb (engine db) then (db, None)
  else
    match find (same_link route_key user_id source_link)
               (order_group_links db) with
    | Some existing => (db, Some existing)
    | None =>
        let link :=
          mkLink (next_id (order_group_links db)) route_key user_id group_id
                 group_title source_link message_id author_id
                 author_username author_first_name (utcnow now) in
        (mkDB (engine db) (order_notifications db)
              (order_group_links db ++ [link])
              (driver_settings db) (blacklist db),
         Some link)
    end.

(** [order_by(created_at)], rows created at the same instant staying in
    the order they were stored in. *)
Fixpoint insert_link (x : OrderGroupLink) (l : list OrderGroupLink)
  : list OrderGroupLink :=
  match l with
  | [] => [x]
  | y :: l' =>
      if (gl_created_at x <=? gl_created_at y)%Z
      then x :: l else y :: insert_link x l'
  end.

Fixpoint by_created_at (l : list OrderGroupLink) : list OrderGroupLink :=
  match l with
  | [] => []
  | x :: l' => insert_link x (by_created_at l')
  end.

Definition get_order_group_links (db : DB) (route_key : pystr) (user_id : Z)
  : list OrderGroupLink :=
  if negb (engine db) then []
  else
    by_created_at
      (filter (fun l => str_eqb (gl_route_key l) route_key &&
                        (gl_user_id l =? user_id)%Z)
              (order_group_links db)).

Definition settings_of (db : DB) (user_id : Z) : option DriverSettings :=
  find (fun s => (ds_user_id s =? user_id)%Z) (driver_settings db).

Definition is_user_in_quiet_hours (db : DB) (now : Clock) (user_id : Z)
  : bool :=
  if negb (engine db) then false
  else
    match settings_of db user_id with
    | None => false
    | Some settings =>
        if negb (ds_quiet_hours_enabled settings) then false
        else
          let current_time := moscow_hhmm now in
          let start := ds_quiet_hours_start settings in
          let end_ := ds_quiet_hours_end settings in
          if str_leb start end_
          then str_leb start current_time && str_leb current_time end_
          else str_leb start current_time || str_leb current_time end_
    end.

(** Clearing of a lapsed [busy_until] on the user's settings row. *)
Fixpoint clear_busy (user_id : Z) (rows : list DriverSettings)
  : list DriverSettings :=
  match rows with
  | [] => []
  | s :: rows' =>
      if (ds_user_id s =? user_id)%Z
      then mkSettings (ds_user_id s) (ds_quiet_hours_enabled s)
                      (ds_quiet_hours_start s) (ds_quiet_hours_end s) None
           :: rows'
      else s :: clear_busy user_id rows'
  end.

Definition is_user_busy (db : DB) (now : Clock) (user_id : Z) : bool * DB :=
  if negb (engine db) then (false, db)
  else
    match settings_of db user_id with
    | None => (false, db)
    | Some settings =>
        match ds_busy_until settings with
        | None => (false, db)
        | Some busy_until =>
            if (utcnow now <? busy_until)%Z then (true, db)
            else
              (false,
               mkDB (engine db) (order_notifications db) (order_group_links db)
                    (clear_busy user_id (driver_settings db)) (blacklist db))
        end
    end.

Definition blocked (user_id : Z) (block_type : pystr) (blocked_id : Z)
    (b : Blacklist) : bool :=
  (bl_user_id b =? user_id)%Z &&
  str_eqb (bl_block_type b) block_type &&
  opt_eqb (bl_blocked_id b) (Some blocked_id).

Definition is_blacklisted (db : DB) (user_id : Z)
    (author_id group_id : option Z) : bool :=
  if negb (engine db) then false
  else
    (match author_id with
     | Some a =>
         negb (a =? 0)%Z &&
         existsb (blocked user_id (u8 "author") a) (blacklist db)
     | None => false
     end)
    ||
    (match group_id with
     | Some g =>
         negb (g =? 0)%Z &&
         existsb (blocked user_id (u8 "group") g) (blacklist db)
     | None => false
     end).

End Store.
Import Store.

(* ================================================================== *)
(** * src/matcher.py: [OrderMatcher._notify_driver] *)
(* ================================================================== *)

Module Notify.

(** The keyword arguments of the two bot callbacks. *)
Record SendCall := mkSend {
  send_driver_id : Z;
  send_order_message : pystr;
  send_order_link : pystr;
  send_group_id : option Z;
  send_message_id : option Z
}.

Record EditCall := mkEdit {
  edit_driver_id : Z;
  edit_message_id : Z;
  edit_order_message : pystr;
  edit_order_link : pystr;
  edit_group_id : option Z;
  edit_source_message_id : option Z
}.

(** What awaiting a callback comes to: it returns, or it raises. *)
Inductive SendOutcome :=
| SendReturned (sent_message_id : option Z)
| SendRaised.

Inductive EditOutcome :=
| EditReturned (ok : bool)
| EditRaised.

Record OrderMatcher := mkMatcher {
  bot_send_func : option (SendCall -> SendOutcome);
  bot_edit_func : option (EditCall -> EditOutcome)
}.

(** The calls made to the bot, in the order they were made. *)
Inductive Effect :=
| CallSend (c : SendCall)
| CallEdit (c : EditCall).

(** [_get_author_from_links]: the first link that carries an author. *)
Definition _get_author_from_links (group_links : list OrderGroupLink)
  : option OrderGroupLink :=
  find (fun link => truthy (gl_author_id link)) group_links.

(** The three assignments to the order that follow. *)
Definition with_author (order : ParsedOrder) (author : option OrderGroupLink)
  : ParsedOrder :=
  match author with
  | None => order
  | Some link =>
      mkOrder (point_a order) (point_b order) (price order)
              (original_text order) (source_group order) (source_link order)
              (region order) (point_a_coords order) (point_b_coords order)
              (timestamp order) (group_title order) (source_group_id order)
              (message_id order)
              (or_oint (gl_author_id link) (author_id order))
              (or_ostr (gl_author_username link) (author_username order))
              (or_ostr (gl_author_first_name link) (author_first_name order))
  end.

Section NotifyDriver.
(** [format_driver_notification], which reads the favourite routes and the
    service groups of the store and renders the text. *)
Variable format_driver_notification :
  DB -> ParsedOrder -> Q -> list OrderGroupLink -> Z -> pystr.
Variable self : OrderMatcher.

Definition group_title_or_default (order : ParsedOrder) : pystr :=
  match group_title order with
  | Some t => if truthy_str t then t else u8 "Группа"
  | None => u8 "Группа"
  end.

Definition add_link_of_order (db : DB) (now : Clock) (route_key : pystr)
    (db_user_id : Z) (group_id : option Z) (order : ParsedOrder) : DB :=
  fst (add_order_group_link db now route_key db_user_id group_id
         (group_title_or_default order) (source_link order)
         (message_id order) (author_id order) (author_username order)
         (author_first_name order)).

Definition render (db : DB) (order : ParsedOrder) (distance : Q)
    (group_links : list OrderGroupLink) (db_user_id : Z)
    (is_admin_extra : bool) : pystr :=
  let notification :=
    format_driver_notification db order distance group_links db_user_id in
  if is_admin_extra then u8 "[ADMIN] " ++ notification else notification.

(** The second half of the method, from [if self.bot_send_func:] on. *)
Definition send_new (db : DB) (now : Clock) (driver_id db_user_id : Z)
    (order : ParsedOrder) (order_db_id : Z) (route_key : pystr)
    (group_id : option Z) (distance : Q) (is_admin_extra : bool)
    (done : list Effect) : DB * ParsedOrder * list Effect :=
  match bot_send_func self with
  | None => (db, order, done)
  | Some send =>
      let db1 := add_link_of_order db now route_key db_user_id group_id order in
      let group_links := get_order_group_links db1 route_key db_user_id in
      let order1 := with_author order (_get_author_from_links group_links) in
      let notification :=
        render db1 order1 distance group_links db_user_id is_admin_extra in
      let call := mkSend driver_id notification (source_link order1)
                         group_id (message_id order1) in
      match send call with
      | SendReturned sent_message_id =>
          if truthy sent_message_id
          then
            (fst (save_order_notification db1 now order_db_id db_user_id
                    sent_message_id (Some route_key)),
             order1, done ++ [CallSend call])
          else (db1, order1, done ++ [CallSend call])
      | SendRaised => (db1, order1, done ++ [CallSend call])
      end
  end.

(** The part of the method between the three checks and
    [if self.bot_send_func:]: the lookup of a message sent for the route
    within the last two hours, and the edit of it. *)
Definition edit_or_send (db0 : DB) (now : Clock) (driver_id db_user_id : Z)
    (order : ParsedOrder) (order_db_id : Z) (route_key : pystr)
    (group_id : option Z) (distance : Q) (is_admin_extra : bool)
  : DB * ParsedOrder * list Effect :=
  let existing := get_existing_notification db0 now db_user_id route_key 2 in
  let existing_links := get_order_group_links db0 route_key db_user_id in
  let already_has_link :=
    existsb (fun link => str_eqb (gl_source_link link) (source_link order))
            existing_links in
  match existing, bot_edit_func self with
  | Some found, Some edit =>
      match on_message_id found with
      | Some handle =>
          if (handle =? 0)%Z
          then send_new db0 now driver_id db_user_id order order_db_id
                        route_key group_id distance is_admin_extra []
          else
            let db1 :=
              if already_has_link then db0
              else add_link_of_order db0 now route_key db_user_id
                                     group_id order in
            let group_links :=
              if already_has_link then existing_links
              else get_order_group_links db1 route_key db_user_id in
            let order1 :=
              with_author order (_get_author_from_links group_links) in
            let notification :=
              render db1 order1 distance group_links db_user_id
                     is_admin_extra in
            let call := mkEdit driver_id handle notification
                               (source_link order1) group_id
                               (message_id order1) in
            match edit call with
            | EditReturned _ => (db1, order1, [CallEdit call])
            | EditRaised =>
                send_new db1 now driver_id db_user_id order1 order_db_id
                         route_key group_id distance is_admin_extra
                         [CallEdit call]
            end
      | None =>
          send_new db0 now driver_id db_user_id order order_db_id
                   route_key group_id distance is_admin_extra []
      end
  | _, _ =>
      send_new db0 now driver_id db_user_id order order_db_id
               route_key group_id distance is_admin_extra []
  end.

(** The result is the store afterwards, the order as the method leaves it
    (it assigns to the order it was given), and the calls it made. *)
Definition _notify_driver (db : DB) (now : Clock) (driver_id db_user_id : Z)
    (order : ParsedOrder) (order_db_id : Z) (route_key : pystr)
    (group_id : option Z) (distance : Q) (is_admin_extra : bool)
  : DB * ParsedOrder * list Effect :=
  if is_user_in_quiet_hours db now db_user_id then (db, order, [])
  else
    let '(busy, db0) := is_user_busy db now db_user_id in
    if busy then (db0, order, [])
    else if is_blacklisted db0 db_user_id (author_id order) group_id
    then (db0, order, [])
    else edit_or_send db0 now driver_id db_user_id order order_db_id
                      route_key group_id distance is_admin_extra.

End NotifyDriver.
End Notify.
Import Notify.

(* ================================================================== *)
(** * Sequences of calls and sample data *)
(* ================================================================== *)

Module Runs.

(** The arguments of [add_order_group_link] other than the triple. *)
Record LinkDetails := mkDetails {
  ld_group_id : option Z;
  ld_group_title : pystr;
  ld_message_id : option Z;
  ld_author_id : option Z;
  ld_author_username : option pystr;
  ld_author_first_name : option pystr
}.

Definition add_link (route_key : pystr) (user_id : Z) (source_link : pystr)
    (db : DB) (call : Clock * LinkDetails) : DB * option OrderGroupLink :=
  let '(now, d) := call in
  add_order_group_link db now route_key user_id (ld_group_id d)
    (ld_group_title d) source_link (ld_message_id d) (ld_author_id d)
    (ld_author_username d) (ld_author_first_name d).

(** Calls made one after the other: the store at the end and what each
    call returned. *)
Fixpoint add_links (route_key : pystr) (user_id : Z) (source_link : pystr)
    (db : DB) (calls : list (Clock * LinkDetails))
  : DB * list (option OrderGroupLink) :=
  match calls with
  | [] => (db, [])
  | call :: rest =>
      let '(db1, r) := add_link route_key user_id source_link db call in
      let '(db2, rs) := add_links route_key user_id source_link db1 rest in
      (db2, r :: rs)
  end.

Definition stored_links (route_key : pystr) (user_id : Z)
    (source_link : pystr) (db : DB) : list OrderGroupLink :=
  filter (same_link route_key user_id source_link) (order_group_links db).

(** The messages of one group, numbered as the group numbers them. *)
Definition sample_group : Z := (-1001234567890)%Z.

Definition sample_order : ParsedOrder :=
  Eval vm_compute in
  mkOrder (u8 "Уфа") (u8 "Казань") (Some 3500%Z) (u8 "Уфа - Казань 3500 руб")
          (str_of_int sample_group) (u8 "https://t.me/c/1234567890/1") None
          None None (u8 "2025-01-01T10:00:00") (Some (u8 "Межгород"))
          (Some sample_group) (Some 1%Z) (Some 42%Z) None None.



(** A store that is available and empty, a moment, and two postings. *)
Definition empty_db : DB := mkDB true [] [] [] [].

Definition noon : Clock := Eval vm_compute in mkClock 1000000000000%Z (u8 "12:00").

Definition posting (title : string) : LinkDetails :=
  mkDetails (Some sample_group) (u8 title) (Some 7%Z) (Some 42%Z) None None.





Definition ufa : Coords := ((547431 # 10000)%Q, (559678 # 10000)%Q).



(** A text without a decimal digit. *)
Definition no_digit {U : Unicode} (s : pystr) : Prop :=
  Forall (fun c => decimal c = None) s.

(** The strings a pattern stands for, whatever surrounds them. *)
Fixpoint lang {U : Unicode} (r : re) (w : pystr) : Prop :=
  match r with
  | Eps => w = []
  | Chr c => exists x, w = [x] /\ test c x = true
  | Seq r1 r2 => exists w1 w2, w = w1 ++ w2 /\ lang r1 w1 /\ lang r2 w2
  | Alt r1 r2 => lang r1 w \/ lang r2 w
  | Opt r1 => w = [] \/ lang r1 w
  | Star r1 => exists ws, w = concat ws /\ Forall (lang r1) ws
  | Rep lo extra r1 =>
      exists ws, w = concat ws /\ Forall (lang r1) ws /\
                 (lo <= List.length ws <= lo + extra)%nat
  | Grp _ r1 => lang r1 w
  | Bol | Eol | WordB | NotBehind _ | NotAhead _ => w = []
  end.

(** A matcher [step] only succeeds by handing its continuation a state
    reached by consuming a word of [P]. *)
Definition consumes (step : st -> (st -> option st) -> option st)
    (P : pystr -> Prop) : Prop :=
  forall s k e, step s k = Some e ->
    exists s1 w, k s1 = Some e /\ rest s = w ++ rest s1 /\ P w.


Definition has_digit {U : Unicode} (s : pystr) : Prop :=
  Exists (fun c => decimal c <> None) s.

(** Patterns every word of which holds a decimal digit. *)
Fixpoint must_digit (r : re) : bool :=
  match r with
  | Chr Digit => true
  | Seq r1 r2 => must_digit r1 || must_digit r2
  | Alt r1 r2 => must_digit r1 && must_digit r2
  | Rep (S _) _ r1 => must_digit r1
  | Grp _ r1 => must_digit r1
  | _ => false
  end.

(** The pattern matches at no place of the text. *)
Definition never_matches {U : Unicode} (r : re) (txt : pystr) : Prop :=
  forall u v bef, txt = u ++ v -> match_here r bef v = None.







(** The three reasons for which a driver is not notified, read off the
    rows of the store. A time of day lies in the quiet window when it is
    between start and end, or, for a window that runs past midnight, after
    the start or before the end. An author or group without an identifier
    (absent or 0) is on no blacklist. *)
Definition in_window (start end_ t : pystr) : bool :=
  if str_leb start end_
  then str_leb start t && str_leb t end_
  else str_leb start t || str_leb t end_.

Definition quiet_now (db : DB) (now : Clock) (user_id : Z) : Prop :=
  exists s, settings_of db user_id = Some s /\
            ds_quiet_hours_enabled s = true /\
            in_window (ds_quiet_hours_start s) (ds_quiet_hours_end s)
                      (moscow_hhmm now) = true.

Definition busy_now (db : DB) (now : Clock) (user_id : Z) : Prop :=
  exists s t, settings_of db user_id = Some s /\
              ds_busy_until s = Some t /\ (utcnow now < t)%Z.

Definition listed (db : DB) (user_id : Z) (kind : pystr) (who : option Z)
  : Prop :=
  exists b i, In b (blacklist db) /\ bl_user_id b = user_id /\
              bl_block_type b = kind /\ who = Some i /\ i <> 0%Z /\
              bl_blocked_id b = Some i.

Definition suppressed (db : DB) (now : Clock) (user_id : Z)
    (order : ParsedOrder) (group_id : option Z) : Prop :=
  quiet_now db now user_id \/ busy_now db now user_id \/
  listed db user_id (u8 "author") (author_id order) \/
  listed db user_id (u8 "group") group_id.

(** A notification of the driver for the route, with a message handle,
    sent no earlier than two hours before [now]. *)
Definition fresh (now : Clock) (user_id : Z) (route_key : pystr)
    (n : OrderNotification) : Prop :=
  on_user_id n = user_id /\ on_route_key n = Some route_key /\
  on_message_id n <> None /\ (utcnow now - hours_us 2 <= on_sent_at n)%Z.

(** A bot whose two callbacks go through, a send returning the handle
    [h]; and a rendering that is the text of the order. *)
Definition working_bot (h : Z) : OrderMatcher :=
  mkMatcher (Some (fun _ => SendReturned (Some h)))
            (Some (fun _ => EditReturned true)).

Definition plain_text (db : DB) (order : ParsedOrder) (distance : Q)
    (links : list OrderGroupLink) (user_id : Z) : pystr :=
  original_text order.

(** The record of a message sent to driver 5 for the route at [noon],
    the moment [h] hours later, a store that holds the record, and one
    in which the driver is also busy for four more hours. *)
Definition sample_route : pystr :=
  Eval vm_compute in normalize_route_key (u8 "Уфа") (u8 "Казань").

Definition earlier : OrderNotification :=
  mkNotification 1 1 5 (utcnow noon) (Some 9001%Z) (Some sample_route).

Definition after_hours (h : Z) : Clock :=
  mkClock (utcnow noon + hours_us h) (u8 "13:00").

Definition notified_db : DB := mkDB true [earlier] [] [] [].

Definition busy_db : DB :=
  mkDB true [earlier] []
       [mkSettings 5 false (u8 "22:00") (u8 "07:00")
                   (Some (utcnow noon + hours_us 4)%Z)]
       [].

End Runs.
Import Runs.

(* ================================================================== *)
(** * Properties *)
(* ================================================================== *)

Unset Implicit Arguments.

(** ** Strings *)

Lemma str_eqb_spec a b : reflect (a = b) (str_eqb a b).
Proof.
  revert b; induction a as [|x a IH]; intros [|y b]; simpl;
    try (constructor; congruence).
  unfold cp_eqb. destruct (N.eqb_spec x y); simpl.
  - destruct (IH b); constructor; congruence.
  - constructor; congruence.
Qed.

Lemma str_eqb_eq a b : str_eqb a b = true <-> a = b.
Proof. destruct (str_eqb_spec a b); split; congruence. Qed.

Lemma str_eqb_refl a : str_eqb a a = true.
Proof. apply str_eqb_eq; reflexivity. Qed.

Lemma str_eqb_neq a b : str_eqb a b = false <-> a <> b.
Proof. destruct (str_eqb_spec a b); split; congruence. Qed.

Lemma str_in_In x xs : str_in x xs = true <-> In x xs.
Proof.
  unfold str_in. rewrite existsb_exists. split.
  - intros [y [Hy E]]. apply str_eqb_eq in E. subst. exact Hy.
  - intros H. exists x. split; [exact H | apply str_eqb_refl].
Qed.


(* ------------------------------------------------------------------ *)
(** ** The order of the price rules *)
(* ------------------------------------------------------------------ *)

Section PriceRules.
Context {U : Unicode}.





End PriceRules.


(* ------------------------------------------------------------------ *)
(** ** Route keys *)
(* ------------------------------------------------------------------ *)

Lemma strip_nil : strip [] = [].
Proof. reflexivity. Qed.

(** Two strings without a separator are recovered from their joins. *)
Lemma join_inj (c : cp) (x y u v : pystr) :
  ~ In c x -> ~ In c y -> x ++ c :: u = y ++ c :: v -> x = y.
Proof.
  revert y. induction x as [|a x IH]; intros [|b y] Hx Hy E; simpl in *.
  - reflexivity.
  - inversion E; subst. exfalso. apply Hy. left. reflexivity.
  - inversion E; subst. exfalso. apply Hx. left. reflexivity.
  - inversion E; subst. f_equal. apply IH; auto.
Qed.

Section RouteKeyFacts.
Context {U : Unicode}.

Lemma normalize_eq (point : pystr) : normalize point = lower (strip point).
Proof.
  destruct point as [|c s]; [|reflexivity].
  simpl. rewrite strip_nil, lower_nil. reflexivity.
Qed.

End RouteKeyFacts.

(** C5 (as amended). The key is the lower-cased, trimmed origin, a colon,
    and the lower-cased, trimmed destination. Swapping the two cities
    changes the key whenever their normal forms differ and neither of them
    contains a colon. *)
Theorem route_key_directional (U : Unicode) (a b : pystr) :
  normalize_route_key a b = lower (strip a) ++ [colon] ++ lower (strip b) /\
  (~ In colon (lower (strip a)) -> ~ In colon (lower (strip b)) ->
   lower (strip a) <> lower (strip b) ->
   normalize_route_key a b <> normalize_route_key b a).
Proof.
  unfold normalize_route_key. rewrite !normalize_eq. split; [reflexivity|].
  intros Ha Hb Hne E. apply Hne.
  simpl in E. eapply join_inj; eauto.
Qed.

(** The example of the specification: Уфа to Казань against Казань to Уфа. *)
Lemma route_key_directional_witness :
  (~ In colon (lower (strip (u8 "Уфа"))) /\
   ~ In colon (lower (strip (u8 "Казань"))) /\
   lower (strip (u8 "Уфа")) <> lower (strip (u8 "Казань"))) /\
  normalize_route_key (u8 "Уфа") (u8 "Казань") = u8 "уфа:казань" /\
  normalize_route_key (u8 "Уфа") (u8 "Казань") <>
  normalize_route_key (u8 "Казань") (u8 "Уфа").
Proof.
  assert (Ha : ~ In colon (lower (strip (u8 "Уфа")))).
  { vm_compute. intuition discriminate. }
  assert (Hb : ~ In colon (lower (strip (u8 "Казань")))).
  { vm_compute. intuition discriminate. }
  assert (Hne : lower (strip (u8 "Уфа")) <> lower (strip (u8 "Казань"))).
  { vm_compute. discriminate. }
  destruct (route_key_directional basic_unicode (u8 "Уфа") (u8 "Казань"))
    as [E H].
  split; [tauto|]. split.
  - rewrite E. vm_compute. reflexivity.
  - apply H; assumption.
Defined.

(** C5 (as stated) fails on names that contain a colon: the normal forms of
    ["x"] and ["x:x"] differ and both orders give ["x:x:x"]. *)
Lemma route_key_colon_collision :
  lower (strip (u8 "x")) <> lower (strip (u8 "x:x")) /\
  normalize_route_key (u8 "x") (u8 "x:x") =
  normalize_route_key (u8 "x:x") (u8 "x").
Proof.
  split; vm_compute; [discriminate | reflexivity].
Qed.

(* ------------------------------------------------------------------ *)
(** ** Group links *)
(* ------------------------------------------------------------------ *)

Section GroupLinks.
Variables (route_key : pystr) (user_id : Z) (source_link : pystr).

Let add := add_link route_key user_id source_link.
Let stored := stored_links route_key user_id source_link.

Lemma find_stored (db : DB) :
  find (same_link route_key user_id source_link) (order_group_links db) =
  hd_error (stored db).
Proof.
  unfold stored, stored_links.
  induction (order_group_links db) as [|l ls IH]; simpl; [reflexivity|].
  destruct (same_link route_key user_id source_link l); simpl; auto.
Qed.

Lemma add_link_present (db : DB) (call : Clock * LinkDetails)
    (row : OrderGroupLink) (others : list OrderGroupLink) :
  engine db = true -> stored db = row :: others ->
  add db call = (db, Some row).
Proof.
  intros He Hs. unfold add, add_link, add_order_group_link.
  destruct call as [now d]. rewrite He. simpl.
  rewrite find_stored. fold stored. rewrite Hs. reflexivity.
Qed.

Lemma add_link_absent (db : DB) (call : Clock * LinkDetails) :
  engine db = true -> stored db = [] ->
  exists row,
    add db call =
      (mkDB (engine db) (order_notifications db)
            (order_group_links db ++ [row])
            (driver_settings db) (blacklist db), Some row) /\
    same_link route_key user_id source_link row = true.
Proof.
  intros He Hs. unfold add, add_link, add_order_group_link.
  destruct call as [now d]. rewrite He. simpl.
  rewrite find_stored. fold stored. rewrite Hs. simpl.
  eexists. split; [reflexivity|].
  unfold same_link. simpl. rewrite !str_eqb_refl, Z.eqb_refl. reflexivity.
Qed.

Lemma add_links_present (calls : list (Clock * LinkDetails)) (db : DB)
    (row : OrderGroupLink) (others : list OrderGroupLink) :
  engine db = true -> stored db = row :: others ->
  add_links route_key user_id source_link db calls =
    (db, map (fun _ => Some row) calls).
Proof.
  intros He Hs. induction calls as [|c cs IH]; simpl; [reflexivity|].
  fold add. rewrite (add_link_present db c row others He Hs).
  rewrite IH. reflexivity.
Qed.

End GroupLinks.

(** C2. With the store available and at most one row stored for the
    triple, any number of calls with that triple (the other arguments
    free) ends with exactly one row for it: the first call returns a row of
    that triple, every later call returns that same row and leaves the
    store as the first call left it, and the rows that were there before
    are still there, in place and unchanged. *)
Theorem add_order_group_link_idempotent
    (route_key : pystr) (user_id : Z) (source_link : pystr) (db : DB)
    (first : Clock * LinkDetails) (later : list (Clock * LinkDetails)) :
  engine db = true ->
  (List.length (stored_links route_key user_id source_link db) <= 1)%nat ->
  let '(db1, r1) := add_link route_key user_id source_link db first in
  let '(dbn, rs) := add_links route_key user_id source_link db1 later in
  exists row,
    r1 = Some row /\
    same_link route_key user_id source_link row = true /\
    stored_links route_key user_id source_link dbn = [row] /\
    dbn = db1 /\
    Forall (fun r => r = Some row) rs /\
    exists added, order_group_links dbn = order_group_links db ++ added.
Proof.
  intros He Hcount.
  destruct (stored_links route_key user_id source_link db)
    as [|row others] eqn:Hs.
  - destruct (add_link_absent route_key user_id source_link db first He Hs)
      as [row [E Hrow]].
    rewrite E.
    set (db1 := mkDB _ _ _ _ _).
    assert (Hs1 : stored_links route_key user_id source_link db1 = [row]).
    { unfold stored_links, db1. simpl. rewrite filter_app.
      unfold stored_links in Hs. rewrite Hs. simpl. rewrite Hrow.
      reflexivity. }
    rewrite (add_links_present route_key user_id source_link later db1 row []
               (He : engine db1 = true) Hs1).
    exists row. repeat split; auto.
    + apply Forall_forall. intros r Hr. apply in_map_iff in Hr.
      destruct Hr as [c [Hc _]]. auto.
    + exists [row]. reflexivity.
  - destruct others as [|o others]; [|simpl in Hcount; lia].
    rewrite (add_link_present route_key user_id source_link db first row []
               He Hs).
    rewrite (add_links_present route_key user_id source_link later db row []
               He Hs).
    exists row. repeat split; auto.
    + assert (Hin : In row (stored_links route_key user_id source_link db)).
      { rewrite Hs. left. reflexivity. }
      apply filter_In in Hin. tauto.
    + apply Forall_forall. intros r Hr. apply in_map_iff in Hr.
      destruct Hr as [c [Hc _]]. auto.
    + exists []. rewrite app_nil_r. reflexivity.
Qed.

Lemma add_order_group_link_idempotent_witness :
  engine empty_db = true /\
  (List.length (stored_links (u8 "уфа:казань") 5 (u8 "https://t.me/c/1/7")
                  empty_db) <= 1)%nat /\
  let '(db1, r1) :=
    add_link (u8 "уфа:казань") 5 (u8 "https://t.me/c/1/7") empty_db
             (noon, posting "Межгород") in
  let '(dbn, rs) :=
    add_links (u8 "уфа:казань") 5 (u8 "https://t.me/c/1/7") db1
              [(noon, posting "Межгород"); (noon, posting "Такси")] in
  exists row,
    r1 = Some row /\
    same_link (u8 "уфа:казань") 5 (u8 "https://t.me/c/1/7") row = true /\
    stored_links (u8 "уфа:казань") 5 (u8 "https://t.me/c/1/7") dbn = [row] /\
    dbn = db1 /\
    Forall (fun r => r = Some row) rs /\
    exists added, order_group_links dbn = order_group_links empty_db ++ added.
Proof.
  split; [reflexivity|]. split; [vm_compute; lia|].
  apply (add_order_group_link_idempotent
           (u8 "уфа:казань") 5 (u8 "https://t.me/c/1/7") empty_db
           (noon, posting "Межгород")
           [(noon, posting "Межгород"); (noon, posting "Такси")]).
  - reflexivity.
  - vm_compute. lia.
Defined.

(* ------------------------------------------------------------------ *)
(** ** The set of processed orders *)
(* ------------------------------------------------------------------ *)




Section ProcessedOrders.
Variable set_order : list pystr -> list pystr.
Hypothesis set_order_enumerates : forall s, Permutation (set_order s) s.


End ProcessedOrders.









(* ------------------------------------------------------------------ *)
(** ** Driver matching *)
(* ------------------------------------------------------------------ *)

Lemma or_int_default (x : option Z) (d : Z) :
  or_int x d = match x with
               | Some z => if (z =? 0)%Z then d else z
               | None => d
               end.
Proof. reflexivity. Qed.


Section MatchingFacts.
Variable get_users_subscribed_to_group : Z -> list User.
Variable get_active_users : list User.
Variable calculate_distance : Coords -> Coords -> Q.
Variable round1 : Q -> Q.
Variable int_of_str : pystr -> option Z.

Let find := find_matching_drivers get_users_subscribed_to_group
              get_active_users calculate_distance round1 int_of_str.




Lemma driver_info_inj (d d' : User) (q q' : Q) :
  driver_info round1 d q = driver_info round1 d' q' -> d = d'.
Proof.
  destruct d, d'. unfold driver_info. simpl. intros H.
  inversion H. subst. reflexivity.
Qed.





End MatchingFacts.







(* ------------------------------------------------------------------ *)
(** ** City names *)
(* ------------------------------------------------------------------ *)

Section CityFacts.
Context {U : Unicode}.

(** [re.match(r'^\d', s)] succeeds exactly on a leading decimal digit. *)
Lemma leading_digit_iff (s : pystr) :
  is_match (match_ leading_digit_re s) = false <->
  (forall c tl, s = c :: tl -> decimal c = None).
Proof.
  unfold match_, match_here, leading_digit_re. simpl.
  destruct s as [|c tl]; simpl.
  - split; [intros _ c tl H; discriminate | reflexivity].
  - destruct (decimal c) as [v|] eqn:E; simpl; split.
    + discriminate.
    + intros H. specialize (H c tl eq_refl). congruence.
    + intros _ c' tl' H. inversion H; subst. exact E.
    + reflexivity.
Qed.

End CityFacts.

(** C7 (as amended). A name is accepted exactly when it is not empty and
    its lower-cased, trimmed form has at least 3 characters, is not in the
    stoplist, is not made of digits only, does not begin with a decimal
    digit, is not a signed decimal number, and is a known city (compared in
    lower case), an alias, a declension, or a name [get_coordinates]
    resolves. The stoplist word "Трансфер" is rejected whatever the tables
    and the geocoder are. *)
Theorem valid_city_name_iff :
  (forall (U : Unicode) (geocode : pystr -> GeocodeResult)
          (KNOWN_CITIES : list pystr)
          (CITY_ALIASES CITY_DECLENSIONS : list (pystr * pystr))
          (cache : Cache) (name : pystr),
     fst (is_valid_city_name geocode KNOWN_CITIES CITY_ALIASES
            CITY_DECLENSIONS cache name) = true <->
     name <> [] /\
     (3 <= List.length (strip (lower name)))%nat /\
     ~ In (strip (lower name)) NOT_CITIES /\
     isdigit (strip (lower name)) = false /\
     (forall c tl, strip (lower name) = c :: tl -> decimal c = None) /\
     match_ number_re (strip (lower name)) = None /\
     (In (strip (lower name)) (map lower KNOWN_CITIES) \/
      dict_has CITY_ALIASES (strip (lower name)) = true \/
      dict_has CITY_DECLENSIONS (strip (lower name)) = true \/
      fst (get_coordinates geocode cache name) <> None)) /\
  (forall (geocode : pystr -> GeocodeResult) (KNOWN_CITIES : list pystr)
          (CITY_ALIASES CITY_DECLENSIONS : list (pystr * pystr))
          (cache : Cache),
     fst (is_valid_city_name (U := basic_unicode) geocode KNOWN_CITIES
            CITY_ALIASES CITY_DECLENSIONS cache (u8 "Трансфер")) = false).
Proof.
  split.
  - intros U geocode KC CA CD cache name.
    unfold is_valid_city_name.
    destruct name as [|c0 name0]; [cbn [fst]; split; [discriminate | tauto]|].
    set (name := c0 :: name0). set (nl := strip (lower name)).
    destruct (Nat.ltb_spec (List.length nl) 3) as [Hlen|Hlen];
      [cbn [fst]; split; [discriminate | intros (_ & H & _); lia]|].
    destruct (str_in nl NOT_CITIES) eqn:Hstop.
    { apply str_in_In in Hstop.
      cbn [fst]; split; [discriminate | intros (_ & _ & H & _); contradiction]. }
    assert (Hstop' : ~ In nl NOT_CITIES).
    { intros H. apply str_in_In in H. congruence. }
    destruct (isdigit nl) eqn:Hdig;
      [cbn [fst]; split; [discriminate | intros (_ & _ & _ & H & _); discriminate]|].
    destruct (is_match (match_ leading_digit_re nl)) eqn:Hlead.
    { cbn [fst]; split; [discriminate|]. intros (_ & _ & _ & _ & H & _).
      pose proof (proj2 (@leading_digit_iff U nl) H). congruence. }
    pose proof (proj1 (@leading_digit_iff U nl) Hlead) as Hlead'.
    destruct (match_ number_re nl) as [e|] eqn:Hnum;
      [cbn [fst]; split; [discriminate
                     | intros (_ & _ & _ & _ & _ & H & _); discriminate]|].
    cbn [is_match].
    assert (Hpre : (c0 :: name0 <> []) /\ (3 <= List.length nl)%nat /\
                   ~ In nl NOT_CITIES /\ false = false /\
                   (forall c tl, nl = c :: tl -> decimal c = None) /\
                   @None st = None).
    { repeat split; auto. discriminate. }
    destruct (str_in nl (map lower KC)) eqn:Hk.
    { apply str_in_In in Hk. cbn [fst]. split; [intros _|reflexivity]. tauto. }
    assert (Hk' : ~ In nl (map lower KC)).
    { intros H. apply str_in_In in H. congruence. }
    destruct (dict_has CA nl) eqn:Ha; [cbn [fst]; split; [intros _|reflexivity]; tauto|].
    destruct (dict_has CD nl) eqn:Hd; [cbn [fst]; split; [intros _|reflexivity]; tauto|].
    destruct (get_coordinates geocode cache name) as [[coords|] cache'] eqn:Hg;
      cbn [fst]; split; try discriminate; try reflexivity.
    + intros _. repeat split; try tauto.
      right. right. right. discriminate.
    + intros (_ & _ & _ & _ & _ & _ & [H | [H | [H | H]]]);
        try contradiction; try discriminate.
  - intros geocode KC CA CD cache. reflexivity.
Qed.

(** C7 (as stated) fails on a name that begins with a digit: "9 Мая" has
    five characters, is not made of digits only, is not in the stoplist, is
    a known city here and is resolved by the geocoder, and is rejected. *)
Lemma city_with_leading_digit_rejected :
  (3 <= List.length (u8 "9 Мая"))%nat /\
  isdigit (u8 "9 Мая") = false /\
  str_in (lower (u8 "9 Мая")) NOT_CITIES = false /\
  In (u8 "9 Мая") [u8 "9 Мая"] /\
  fst (get_coordinates (fun _ => Located ufa) [] (u8 "9 Мая")) = Some ufa /\
  fst (is_valid_city_name (fun _ => Located ufa) [u8 "9 Мая"] [] [] []
         (u8 "9 Мая")) = false.
Proof.
  repeat split; try (vm_compute; reflexivity).
  - vm_compute. lia.
  - left. reflexivity.
Qed.


(* ------------------------------------------------------------------ *)
(** ** What a match consumes *)
(* ------------------------------------------------------------------ *)

Section MatcherSound.
Context {U : Unicode}.

Lemma rep_may_consumes step P :
  consumes step P ->
  forall extra k s e, rep_may step k extra s = Some e ->
    exists s1 ws, k s1 = Some e /\ rest s = concat ws ++ rest s1 /\
                  Forall P ws /\ (List.length ws <= extra)%nat.
Proof.
  intros Hstep. induction extra as [|n IH]; intros k s e H; simpl in H.
  - exists s, []. repeat split; auto.
  - destruct (step s (rep_may step k n)) as [found|] eqn:E.
    + inversion H; subst found. apply Hstep in E.
      destruct E as (s1 & w & Hk & Hr & Hw).
      apply IH in Hk. destruct Hk as (s2 & ws & Hk & Hr2 & Hws & Hlen).
      exists s2, (w :: ws). simpl. repeat split; auto.
      * rewrite Hr, Hr2, app_assoc. reflexivity.
      * lia.
    + exists s, []. simpl. repeat split; auto. lia.
Qed.

Lemma rep_must_consumes step P :
  consumes step P ->
  forall lo extra k s e, rep_must step k lo extra s = Some e ->
    exists s1 ws, k s1 = Some e /\ rest s = concat ws ++ rest s1 /\
                  Forall P ws /\ (lo <= List.length ws <= lo + extra)%nat.
Proof.
  intros Hstep. induction lo as [|n IH]; intros extra k s e H; simpl in H.
  - destruct (rep_may_consumes step P Hstep extra k s e H)
      as (s1 & ws & Hk & Hr & Hws & Hlen).
    exists s1, ws. repeat split; auto; lia.
  - apply Hstep in H. destruct H as (s1 & w & Hk & Hr & Hw).
    apply IH in Hk. destruct Hk as (s2 & ws & Hk & Hr2 & Hws & Hlen).
    exists s2, (w :: ws). simpl. repeat split; auto; try lia.
    rewrite Hr, Hr2, app_assoc. reflexivity.
Qed.

Lemma star_loop_consumes step P :
  consumes step P ->
  forall fuel k s e, star_loop step k fuel s = Some e ->
    exists s1 ws, k s1 = Some e /\ rest s = concat ws ++ rest s1 /\
                  Forall P ws.
Proof.
  intros Hstep. induction fuel as [|n IH]; intros k s e H; simpl in H.
  - exists s, []. repeat split; auto.
  - match type of H with
    | match ?t with _ => _ end = _ => destruct t as [found|] eqn:E
    end.
    + inversion H; subst found. apply Hstep in E.
      destruct E as (s1 & w & Hk & Hr & Hw).
      destruct (_ <? _)%nat; [|discriminate].
      apply IH in Hk. destruct Hk as (s2 & ws & Hk & Hr2 & Hws).
      exists s2, (w :: ws). simpl. repeat split; auto.
      rewrite Hr, Hr2, app_assoc. reflexivity.
    + exists s, []. simpl. repeat split; auto.
Qed.

Lemma m_consumes (r : re) : consumes (m r) (lang r).
Proof.
  induction r as [ | c | r1 IH1 r2 IH2 | r1 IH1 r2 IH2 | r1 IH1 | r1 IH1
                 | lo extra r1 IH1 | i r1 IH1 | | | | c | c ];
    intros s k e H; simpl in H.
  - exists s, []. simpl. auto.
  - destruct (rest s) as [|x tl] eqn:Hr; [discriminate|].
    destruct (test c x) eqn:Hx; [|discriminate].
    exists (advance s x tl), [x]. simpl. repeat split; auto.
    exists x. auto.
  - apply IH1 in H. destruct H as (s1 & w1 & Hk & Hr & Hw1).
    apply IH2 in Hk. destruct Hk as (s2 & w2 & Hk & Hr2 & Hw2).
    exists s2, (w1 ++ w2). repeat split; auto.
    + rewrite Hr, Hr2, app_assoc. reflexivity.
    + simpl. exists w1, w2. auto.
  - destruct (m r1 s k) as [found|] eqn:E.
    + inversion H; subst found. apply IH1 in E.
      destruct E as (s1 & w & Hk & Hr & Hw). exists s1, w. simpl. auto.
    + apply IH2 in H.
      destruct H as (s1 & w & Hk & Hr & Hw). exists s1, w. simpl. auto.
  - destruct (m r1 s k) as [found|] eqn:E.
    + inversion H; subst found. apply IH1 in E.
      destruct E as (s1 & w & Hk & Hr & Hw). exists s1, w. simpl. auto.
    + exists s, []. simpl. auto.
  - apply (star_loop_consumes (m r1) (lang r1) IH1) in H.
    destruct H as (s1 & ws & Hk & Hr & Hws).
    exists s1, (concat ws). repeat split; auto. simpl. exists ws. auto.
  - apply (rep_must_consumes (m r1) (lang r1) IH1) in H.
    destruct H as (s1 & ws & Hk & Hr & Hws & Hlen).
    exists s1, (concat ws). repeat split; auto. simpl. exists ws. auto.
  - apply IH1 in H. destruct H as (s1 & w & Hk & Hr & Hw).
    eexists. exists w. split; [exact Hk|]. simpl. auto.
  - destruct (before s); [|discriminate]. exists s, []. simpl. auto.
  - exists s, []. simpl. repeat split; auto.
    destruct (rest s) as [|x [|y tl]]; try discriminate; auto.
    destruct (cp_eqb x 10); [auto | discriminate].
  - destruct (xorb _ _); [|discriminate]. exists s, []. simpl. auto.
  - destruct (head_is _ _); [discriminate|]. exists s, []. simpl. auto.
  - destruct (head_is _ _); [discriminate|]. exists s, []. simpl. auto.
Qed.

(** A match at a place takes a word of the pattern off the front. *)
Lemma match_here_word (r : re) (bef txt : pystr) (e : st) :
  match_here r bef txt = Some e ->
  exists w, txt = w ++ rest e /\ lang r w.
Proof.
  unfold match_here. intros H. apply m_consumes in H.
  destruct H as (s1 & w & Hk & Hr & Hw). inversion Hk; subst s1.
  exists w. auto.
Qed.

End MatcherSound.

Section DigitFree.
Context {U : Unicode}.

Lemma no_digit_app (a b : pystr) :
  no_digit (a ++ b) <-> no_digit a /\ no_digit b.
Proof. unfold no_digit. apply Forall_app. Qed.

Lemma has_digit_app (a b : pystr) :
  has_digit (a ++ b) <-> has_digit a \/ has_digit b.
Proof. unfold has_digit. apply Exists_app. Qed.

Lemma no_digit_has_digit (s : pystr) : no_digit s -> has_digit s -> False.
Proof.
  unfold no_digit, has_digit. intros Hn Hh.
  apply Exists_exists in Hh. destruct Hh as (x & Hx & Hd).
  rewrite Forall_forall in Hn. apply Hd, Hn, Hx.
Qed.

Lemma test_digit_iff (x : cp) : test Digit x = true <-> decimal x <> None.
Proof.
  simpl. destruct (decimal x); split; intros H; try congruence; discriminate.
Qed.

Lemma lang_must_digit (r : re) :
  must_digit r = true -> forall w, lang r w -> has_digit w.
Proof.
  induction r as [ | c | r1 IH1 r2 IH2 | r1 IH1 r2 IH2 | r1 IH1 | r1 IH1
                 | lo extra r1 IH1 | i r1 IH1 | | | | c | c ];
    simpl; intros Hm w Hw; try discriminate.
  - destruct c; try discriminate.
    destruct Hw as (x & Hw & Hx). subst w.
    constructor. apply test_digit_iff. exact Hx.
  - destruct Hw as (w1 & w2 & Hw & H1 & H2). subst w.
    apply has_digit_app. apply orb_true_iff in Hm.
    destruct Hm as [Hm | Hm]; [left; auto | right; auto].
  - apply andb_true_iff in Hm. destruct Hm as [Hm1 Hm2].
    destruct Hw as [Hw | Hw]; auto.
  - destruct lo as [|lo]; [discriminate|].
    destruct Hw as (ws & Hw & Hws & Hlen). subst w.
    destruct ws as [|w1 ws]; [simpl in Hlen; lia|].
    simpl. apply has_digit_app. left. inversion Hws; subst. auto.
  - auto.
Qed.

Lemma no_digit_never_matches (r : re) (txt : pystr) :
  must_digit r = true -> no_digit txt -> never_matches r txt.
Proof.
  intros Hm Hn u v bef Huv.
  destruct (match_here r bef v) as [e|] eqn:E; [|reflexivity].
  exfalso. apply match_here_word in E. destruct E as (w & Hv & Hw).
  apply (lang_must_digit r Hm) in Hw.
  subst txt v. apply no_digit_app in Hn. destruct Hn as [_ Hn].
  apply no_digit_app in Hn. destruct Hn as [Hn _].
  eapply no_digit_has_digit; eauto.
Qed.

Lemma never_matches_tail (r : re) (x : cp) (txt : pystr) :
  never_matches r (x :: txt) -> never_matches r txt.
Proof.
  intros H u v bef Huv. apply (H (x :: u) v bef). simpl. congruence.
Qed.


Lemma delete_never (r : re) (txt bef : pystr) :
  never_matches r txt -> delete_from r 0 bef txt = txt.
Proof.
  revert bef. induction txt as [|x tl IH]; intros bef H; simpl.
  - reflexivity.
  - unfold match_len. rewrite (H [] (x :: tl) bef eq_refl).
    f_equal. apply IH. eapply never_matches_tail; eauto.
Qed.

(** A text without digits goes through the three deletions unchanged and
    gives no price. *)
Lemma text_clean_no_digit (txt : pystr) :
  no_digit txt -> text_clean txt = txt.
Proof.
  intros H. unfold text_clean, sub_delete.
  rewrite (delete_never date_re txt []);
    [|apply no_digit_never_matches; [reflexivity | exact H]].
  rewrite (delete_never time_re txt []);
    [|apply no_digit_never_matches; [reflexivity | exact H]].
  apply delete_never. apply no_digit_never_matches; [reflexivity | exact H].
Qed.


End DigitFree.

(* ------------------------------------------------------------------ *)
(** ** Deleting a match *)
(* ------------------------------------------------------------------ *)

Section Deletion.
Context {U : Unicode}.






End Deletion.

(* ------------------------------------------------------------------ *)
(** ** Greedy runs *)
(* ------------------------------------------------------------------ *)

Section GreedyRuns.
Context {U : Unicode}.

















End GreedyRuns.

(* ------------------------------------------------------------------ *)
(** ** A date or a time in a message *)
(* ------------------------------------------------------------------ *)

Section DatesAndTimes.
Context {U : Unicode}.












End DatesAndTimes.

(* ------------------------------------------------------------------ *)
(** ** A telephone number in a message *)
(* ------------------------------------------------------------------ *)

Section Completeness.
Context {U : Unicode}.





End Completeness.

Section Telephone.
Context {U : Unicode}.

















End Telephone.

Section TelephoneDeleted.
Context {U : Unicode}.





End TelephoneDeleted.



(* ------------------------------------------------------------------ *)
(** ** The store *)
(* ------------------------------------------------------------------ *)

Lemma opt_eqb_eq (x y : option Z) : opt_eqb x y = true <-> x = y.
Proof.
  destruct x as [a|], y as [b|]; simpl; try (split; congruence).
  rewrite Z.eqb_eq. split; congruence.
Qed.

Lemma quiet_iff (db : DB) (now : Clock) (user_id : Z) :
  engine db = true ->
  (is_user_in_quiet_hours db now user_id = true <-> quiet_now db now user_id).
Proof.
  intros He. unfold is_user_in_quiet_hours, quiet_now. rewrite He. simpl.
  destruct (settings_of db user_id) as [s|].
  - destruct (ds_quiet_hours_enabled s) eqn:En; simpl.
    + fold (in_window (ds_quiet_hours_start s) (ds_quiet_hours_end s)
                      (moscow_hhmm now)).
      split.
      * intros H. exists s. auto.
      * intros (s' & Hs & _ & Hw). inversion Hs; subst. exact Hw.
    + split; [discriminate|].
      intros (s' & Hs & Hen & _). inversion Hs; subst. congruence.
  - split; [discriminate|]. intros (s' & Hs & _). discriminate.
Qed.

Lemma busy_iff (db : DB) (now : Clock) (user_id : Z) :
  engine db = true ->
  (fst (is_user_busy db now user_id) = true <-> busy_now db now user_id).
Proof.
  intros He. unfold is_user_busy, busy_now. rewrite He. simpl.
  destruct (settings_of db user_id) as [s|]; simpl.
  - destruct (ds_busy_until s) as [t|] eqn:Ht; simpl.
    + destruct (Z.ltb_spec (utcnow now) t); simpl; split.
      * intros _. exists s, t. auto.
      * reflexivity.
      * discriminate.
      * intros (s' & t' & Hs & Ht' & Hlt). inversion Hs; subst.
        rewrite Ht in Ht'. inversion Ht'; subst. lia.
    + split; [discriminate|].
      intros (s' & t' & Hs & Ht' & _). inversion Hs; subst. congruence.
  - split; [discriminate|]. intros (s' & t' & Hs & _). discriminate.
Qed.

Lemma is_user_busy_frame (db : DB) (now : Clock) (user_id : Z) :
  engine (snd (is_user_busy db now user_id)) = engine db /\
  order_notifications (snd (is_user_busy db now user_id))
    = order_notifications db /\
  order_group_links (snd (is_user_busy db now user_id))
    = order_group_links db /\
  blacklist (snd (is_user_busy db now user_id)) = blacklist db.
Proof.
  unfold is_user_busy. destruct (negb (engine db)); [simpl; auto|].
  destruct (settings_of db user_id) as [s|]; [|simpl; auto].
  destruct (ds_busy_until s) as [t|]; [|simpl; auto].
  destruct (utcnow now <? t)%Z; simpl; auto.
Qed.

Lemma existsb_blocked (db : DB) (user_id : Z) (kind : pystr) (i : Z) :
  existsb (blocked user_id kind i) (blacklist db) = true <->
  exists b, In b (blacklist db) /\ bl_user_id b = user_id /\
            bl_block_type b = kind /\ bl_blocked_id b = Some i.
Proof.
  rewrite existsb_exists. unfold blocked. split.
  - intros (b & Hb & H). apply andb_true_iff in H. destruct H as [H H3].
    apply andb_true_iff in H. destruct H as [H1 H2].
    exists b. rewrite Z.eqb_eq in H1. apply str_eqb_eq in H2.
    apply opt_eqb_eq in H3. auto.
  - intros (b & Hb & H1 & H2 & H3). exists b. split; [exact Hb|].
    rewrite H1, H2, H3, Z.eqb_refl, str_eqb_refl. simpl.
    apply Z.eqb_refl.
Qed.

Lemma listed_iff (db : DB) (user_id : Z) (kind : pystr) (who : option Z) :
  match who with
  | Some i => negb (i =? 0)%Z && existsb (blocked user_id kind i) (blacklist db)
  | None => false
  end = true <-> listed db user_id kind who.
Proof.
  unfold listed. destruct who as [i|].
  - rewrite andb_true_iff, negb_true_iff, Z.eqb_neq, existsb_blocked. split.
    + intros (Hi & b & Hb & H1 & H2 & H3). exists b, i. auto 10.
    + intros (b & j & Hb & H1 & H2 & Hj & Hj0 & H3). inversion Hj; subst j.
      split; [exact Hj0|]. exists b. auto.
  - split; [discriminate|]. intros (b & j & _ & _ & _ & Hj & _). discriminate.
Qed.

Lemma blacklisted_iff (db : DB) (user_id : Z) (author group : option Z) :
  engine db = true ->
  (is_blacklisted db user_id author group = true <->
   listed db user_id (u8 "author") author \/
   listed db user_id (u8 "group") group).
Proof.
  intros He. unfold is_blacklisted. rewrite He. cbn [negb].
  rewrite orb_true_iff, !listed_iff. reflexivity.
Qed.

(* ------------------------------------------------------------------ *)
(** ** Notifying a driver *)
(* ------------------------------------------------------------------ *)

Section NotifyFacts.
Variable format_driver_notification :
  DB -> ParsedOrder -> Q -> list OrderGroupLink -> Z -> pystr.
Variable self : OrderMatcher.



End NotifyFacts.


Lemma recent_iff (now : Clock) (user_id : Z) (route_key : pystr)
    (n : OrderNotification) :
  recent user_id route_key (utcnow now - hours_us 2) n = true <->
  fresh now user_id route_key n.
Proof.
  unfold recent, fresh. rewrite !andb_true_iff, Z.eqb_eq, Z.leb_le.
  destruct (on_route_key n) as [k|], (on_message_id n) as [i|];
    rewrite ?str_eqb_eq; split; intros H; decompose [and] H; clear H;
    repeat split; try congruence; try discriminate; auto.
Qed.

Lemma latest_of (rows : list OrderNotification) :
  forall best r, latest rows best = Some r ->
    (In r rows \/ best = Some r) /\
    (forall n, In n rows \/ best = Some n -> (on_sent_at n <= on_sent_at r)%Z).
Proof.
  induction rows as [|x rows IH]; intros best r H; simpl in H.
  - subst best. split; [auto|]. intros n [[] | Hn]. inversion Hn. lia.
  - destruct best as [b|].
    + destruct (Z.ltb_spec (on_sent_at b) (on_sent_at x)) as [Hlt|Hge];
        apply IH in H; destruct H as [Hin Hmax].
      * split; [destruct Hin as [Hin | Hin]; [simpl; auto|]|].
        -- inversion Hin; subst. simpl. auto.
        -- intros n [[Hn | Hn] | Hn].
           ++ subst. apply Hmax. auto.
           ++ apply Hmax. auto.
           ++ inversion Hn; subst.
              assert (on_sent_at x <= on_sent_at r)%Z by (apply Hmax; auto).
              lia.
      * split; [destruct Hin as [Hin | Hin]; simpl; auto|].
        intros n [[Hn | Hn] | Hn].
        -- subst.
           assert (on_sent_at b <= on_sent_at r)%Z by (apply Hmax; auto). lia.
        -- apply Hmax. auto.
        -- apply Hmax. auto.
    + apply IH in H. destruct H as [Hin Hmax].
      split; [destruct Hin as [Hin | Hin]; [simpl; auto|]|].
      * inversion Hin; subst. simpl. auto.
      * intros n [[Hn | Hn] | Hn]; try discriminate.
        -- subst. apply Hmax. auto.
        -- apply Hmax. auto.
Qed.

Lemma latest_nonempty (rows : list OrderNotification) (b : OrderNotification) :
  latest rows (Some b) <> None.
Proof.
  revert b. induction rows as [|x rows IH]; intros b; simpl.
  - discriminate.
  - destruct (on_sent_at b <? on_sent_at x)%Z; apply IH.
Qed.

(** What [get_existing_notification] finds: the latest fresh record, and
    nothing exactly when there is no fresh record. *)
Lemma get_existing_some (db : DB) (now : Clock) (user_id : Z)
    (route_key : pystr) (r : OrderNotification) :
  get_existing_notification db now user_id route_key 2 = Some r ->
  In r (order_notifications db) /\ fresh now user_id route_key r /\
  (forall n, In n (order_notifications db) -> fresh now user_id route_key n ->
             (on_sent_at n <= on_sent_at r)%Z).
Proof.
  unfold get_existing_notification. destruct (negb (engine db)); [discriminate|].
  intros H. apply latest_of in H. destruct H as [[Hin | Hin] Hmax];
    [|discriminate].
  apply filter_In in Hin. destruct Hin as [Hin Hr].
  split; [exact Hin|]. split; [apply recent_iff; exact Hr|].
  intros n Hn Hf. apply Hmax. left. apply filter_In.
  split; [exact Hn | apply recent_iff; exact Hf].
Qed.

Lemma get_existing_none (db : DB) (now : Clock) (user_id : Z)
    (route_key : pystr) :
  engine db = true ->
  (get_existing_notification db now user_id route_key 2 = None <->
   forall n, In n (order_notifications db) -> ~ fresh now user_id route_key n).
Proof.
  intros He. unfold get_existing_notification. rewrite He. cbn [negb].
  destruct (filter _ (order_notifications db)) as [|x rows] eqn:E.
  - split; [|reflexivity]. intros _ n Hn Hf.
    apply recent_iff in Hf.
    assert (Hin : In n (filter (recent user_id route_key
                                  (utcnow now - hours_us 2))
                          (order_notifications db)))
      by (apply filter_In; auto).
    rewrite E in Hin. destruct Hin.
  - split.
    + intros H. simpl in H. exfalso. revert H. apply latest_nonempty.
    + intros H. exfalso.
      assert (Hin : In x (filter (recent user_id route_key
                                    (utcnow now - hours_us 2))
                            (order_notifications db)))
        by (rewrite E; left; reflexivity).
      apply filter_In in Hin. destruct Hin as [Hin Hr].
      apply (H x Hin). apply recent_iff. exact Hr.
Qed.

Lemma get_existing_ext (db db0 : DB) (now : Clock) (user_id : Z)
    (route_key : pystr) :
  engine db0 = engine db ->
  order_notifications db0 = order_notifications db ->
  get_existing_notification db0 now user_id route_key 2 =
  get_existing_notification db now user_id route_key 2.
Proof.
  intros He Hn. unfold get_existing_notification. rewrite He, Hn. reflexivity.
Qed.

Lemma latest_last (n : OrderNotification) (rows : list OrderNotification) :
  forall best,
    (forall x, In x rows \/ best = Some x -> (on_sent_at x < on_sent_at n)%Z) ->
    latest (rows ++ [n]) best = Some n.
Proof.
  induction rows as [|x rows IH]; intros best H; simpl.
  - destruct best as [b|]; [|reflexivity].
    assert (on_sent_at b < on_sent_at n)%Z by (apply H; auto).
    destruct (Z.ltb_spec (on_sent_at b) (on_sent_at n)); [reflexivity | lia].
  - destruct best as [b|].
    + destruct (on_sent_at b <? on_sent_at x)%Z; apply IH.
      * intros y [Hy | Hy]; apply H; [left; right; exact Hy|].
        inversion Hy; subst. left; left; reflexivity.
      * intros y [Hy | Hy]; apply H; [left; right; exact Hy | right; exact Hy].
    + apply IH. intros y [Hy | Hy]; apply H; [left; right; exact Hy|].
      inversion Hy; subst. left; left; reflexivity.
Qed.

(** A record stored now, with no fresh record before it, is the one a
    lookup finds for the next two hours. *)
Lemma stored_found_later (db db' : DB) (now later : Clock) (user_id : Z)
    (route_key : pystr) (n : OrderNotification) :
  engine db' = true ->
  order_notifications db' = order_notifications db ++ [n] ->
  on_user_id n = user_id -> on_route_key n = Some route_key ->
  on_message_id n <> None -> on_sent_at n = utcnow now ->
  (forall x, In x (order_notifications db) -> ~ fresh now user_id route_key x) ->
  (utcnow now <= utcnow later <= utcnow now + hours_us 2)%Z ->
  get_existing_notification db' later user_id route_key 2 = Some n.
Proof.
  intros He Hn Hu Hk Hm Ht Hold Hl.
  unfold get_existing_notification. rewrite He, Hn. cbn [negb].
  rewrite filter_app. cbn [filter].
  assert (Hr : recent user_id route_key (utcnow later - hours_us 2) n = true).
  { apply recent_iff. unfold fresh. repeat split; auto. lia. }
  rewrite Hr. apply latest_last.
  intros x [Hx | Hx]; [|discriminate].
  apply filter_In in Hx. destruct Hx as [Hx Hrx].
  apply recent_iff in Hrx. destruct Hrx as (Hxu & Hxk & Hxm & Hxt).
  destruct (Z.lt_ge_cases (on_sent_at x) (on_sent_at n)) as [|Hge]; [assumption|].
  exfalso. apply (Hold x Hx). unfold fresh. repeat split; auto.
  unfold hours_us in *. lia.
Qed.

Lemma suppressed_iff (db : DB) (now : Clock) (user_id : Z)
    (order : ParsedOrder) (group_id : option Z) :
  engine db = true ->
  (suppressed db now user_id order group_id <->
   is_user_in_quiet_hours db now user_id
   || fst (is_user_busy db now user_id)
   || is_blacklisted db user_id (author_id order) group_id = true).
Proof.
  intros He. rewrite !orb_true_iff.
  rewrite (quiet_iff db now user_id He), (busy_iff db now user_id He),
          (blacklisted_iff db user_id (author_id order) group_id He).
  unfold suppressed. tauto.
Qed.

Lemma add_link_of_order_frame (db : DB) (now : Clock) (route_key : pystr)
    (user_id : Z) (group_id : option Z) (order : ParsedOrder) :
  engine (add_link_of_order db now route_key user_id group_id order)
    = engine db /\
  order_notifications (add_link_of_order db now route_key user_id group_id order)
    = order_notifications db.
Proof.
  unfold add_link_of_order, add_order_group_link.
  destruct (negb (engine db)); [simpl; auto|].
  destruct (find _ (order_group_links db)); simpl; auto.
Qed.

Section EditOrSend.

Variable format_driver_notification :
  DB -> ParsedOrder -> Q -> list OrderGroupLink -> Z -> pystr.
Variable self : OrderMatcher.

(** A driver who is not suppressed gets to the lookup, with the records
    of the store as they were. *)
Lemma notify_unsuppressed (db : DB) (now : Clock) (driver_id db_user_id : Z)
    (order : ParsedOrder) (order_db_id : Z) (route_key : pystr)
    (group_id : option Z) (distance : Q) (is_admin_extra : bool) :
  engine db = true ->
  ~ suppressed db now db_user_id order group_id ->
  exists db0,
    engine db0 = true /\
    order_notifications db0 = order_notifications db /\
    _notify_driver format_driver_notification self db now driver_id
      db_user_id order order_db_id route_key group_id distance is_admin_extra
    = edit_or_send format_driver_notification self db0 now driver_id
        db_user_id order order_db_id route_key group_id distance
        is_admin_extra.
Proof.
  intros He Hs. unfold _notify_driver.
  pose proof (is_user_busy_frame db now db_user_id) as (Hfe & Hfn & Hfl & Hfb).
  pose proof (proj1 (busy_iff db now db_user_id He)) as Hbusy.
  destruct (is_user_in_quiet_hours db now db_user_id) eqn:Hq.
  { exfalso. apply Hs. left. apply (quiet_iff db now db_user_id He). exact Hq. }
  destruct (is_user_busy db now db_user_id) as [busy db0]. simpl in *.
  destruct busy.
  { exfalso. apply Hs. right. left. apply Hbusy. reflexivity. }
  assert (He0 : engine db0 = true) by congruence.
  destruct (is_blacklisted db0 db_user_id (author_id order) group_id) eqn:Hb.
  { exfalso. apply Hs. right. right.
    apply (blacklisted_iff db0 _ _ _ He0) in Hb.
    unfold listed in *. rewrite Hfb in Hb. exact Hb. }
  exists db0. auto.
Qed.

Lemma send_new_sends (db : DB) (now : Clock) (driver_id db_user_id : Z)
    (order : ParsedOrder) (order_db_id : Z) (route_key : pystr)
    (group_id : option Z) (distance : Q) (is_admin_extra : bool)
    (done : list Effect) (send : SendCall -> SendOutcome) :
  engine db = true ->
  bot_send_func self = Some send ->
  (forall c, exists h, send c = SendReturned (Some h) /\ h <> 0%Z) ->
  exists db' order' call h,
    send_new format_driver_notification self db now driver_id db_user_id
      order order_db_id route_key group_id distance is_admin_extra done
    = (db', order', done ++ [CallSend call]) /\
    send_driver_id call = driver_id /\
    send call = SendReturned (Some h) /\ h <> 0%Z /\
    engine db' = true /\
    order_notifications db' =
      order_notifications db ++
      [mkNotification (next_id (order_notifications db)) order_db_id
                      db_user_id (utcnow now) (Some h) (Some route_key)].
Proof.
  intros He Hsend Hok. unfold send_new. rewrite Hsend.
  pose proof (add_link_of_order_frame db now route_key db_user_id group_id
                order) as [Hle Hln].
  set (db1 := add_link_of_order db now route_key db_user_id group_id order)
    in *.
  set (links := get_order_group_links db1 route_key db_user_id).
  set (order1 := with_author order (_get_author_from_links links)).
  set (call := mkSend driver_id _ _ _ _).
  destruct (Hok call) as (h & Hh & Hnz). rewrite Hh.
  assert (Ht : truthy (Some h) = true).
  { simpl. destruct (Z.eqb_spec h 0); [contradiction | reflexivity]. }
  rewrite Ht. unfold save_order_notification. rewrite Hle, He. cbn [negb fst].
  exists (mkDB true
            (order_notifications db1 ++
             [mkNotification (next_id (order_notifications db1)) order_db_id
                             db_user_id (utcnow now) (Some h) (Some route_key)])
            (order_group_links db1) (driver_settings db1) (blacklist db1)),
         order1, call, h.
  rewrite Hln. repeat split; auto.
Qed.

Lemma edit_or_send_edits (db0 : DB) (now : Clock) (driver_id db_user_id : Z)
    (order : ParsedOrder) (order_db_id : Z) (route_key : pystr)
    (group_id : option Z) (distance : Q) (is_admin_extra : bool)
    (found : OrderNotification) (handle : Z)
    (edit : EditCall -> EditOutcome) :
  get_existing_notification db0 now db_user_id route_key 2 = Some found ->
  on_message_id found = Some handle -> handle <> 0%Z ->
  bot_edit_func self = Some edit ->
  (forall c, edit c <> EditRaised) ->
  exists db1 order1 call,
    edit_or_send format_driver_notification self db0 now driver_id
      db_user_id order order_db_id route_key group_id distance is_admin_extra
    = (db1, order1, [CallEdit call]) /\
    edit_message_id call = handle /\ edit_driver_id call = driver_id /\
    order_notifications db1 = order_notifications db0.
Proof.
  intros Hex Hm Hnz Hedit Hok. unfold edit_or_send.
  rewrite Hex, Hedit, Hm.
  destruct (Z.eqb_spec handle 0) as [|_]; [contradiction|].
  match goal with
  | |- context [edit ?c] => set (call := c)
  end.
  pose proof (Hok call) as Hcall.
  destruct (edit call) as [ok|]; [|contradiction].
  eexists _, _, call. split; [reflexivity|].
  repeat split.
  destruct (existsb _ _); [reflexivity|].
  apply add_link_of_order_frame.
Qed.

End EditOrSend.

(** C1 (as amended). For a driver who is not suppressed, with the store
    available:
    (a) when the store holds a fresh record (for the driver and the route
    key, with a message handle, sent no earlier than two hours ago), no
    record has the handle 0, and the edit callback is set and does not
    raise, the only call made is one edit, of the handle of the latest
    fresh record, and the notification records are left as they were;
    (b) when the store holds no fresh record and the send callback is set
    and returns a handle other than 0, the only call made is one send,
    one record with the returned handle is appended for the driver and the
    route key, and a lookup made up to two hours later finds that record. *)
Theorem edit_within_two_hours_else_send
    (format_driver_notification :
       DB -> ParsedOrder -> Q -> list OrderGroupLink -> Z -> pystr)
    (self : OrderMatcher) (db : DB) (now : Clock) (driver_id db_user_id : Z)
    (order : ParsedOrder) (order_db_id : Z) (route_key : pystr)
    (group_id : option Z) (distance : Q) (is_admin_extra : bool) :
  engine db = true ->
  ~ suppressed db now db_user_id order group_id ->
  let '(db', _, calls) :=
    _notify_driver format_driver_notification self db now driver_id
      db_user_id order order_db_id route_key group_id distance is_admin_extra
  in
  ((exists n, In n (order_notifications db) /\
              fresh now db_user_id route_key n) ->
   (forall n, In n (order_notifications db) -> on_message_id n <> Some 0%Z) ->
   forall edit, bot_edit_func self = Some edit ->
   (forall c, edit c <> EditRaised) ->
   exists n call,
     In n (order_notifications db) /\ fresh now db_user_id route_key n /\
     (forall n', In n' (order_notifications db) ->
                 fresh now db_user_id route_key n' ->
                 (on_sent_at n' <= on_sent_at n)%Z) /\
     on_message_id n = Some (edit_message_id call) /\
     edit_driver_id call = driver_id /\
     calls = [CallEdit call] /\
     order_notifications db' = order_notifications db)
  /\
  ((forall n, In n (order_notifications db) ->
              ~ fresh now db_user_id route_key n) ->
   forall send, bot_send_func self = Some send ->
   (forall c, exists h, send c = SendReturned (Some h) /\ h <> 0%Z) ->
   exists call h,
     send_driver_id call = driver_id /\
     send call = SendReturned (Some h) /\
     calls = [CallSend call] /\
     let stored :=
       mkNotification (next_id (order_notifications db)) order_db_id
                      db_user_id (utcnow now) (Some h) (Some route_key) in
     order_notifications db' = order_notifications db ++ [stored] /\
     forall later,
       (utcnow now <= utcnow later <= utcnow now + hours_us 2)%Z ->
       get_existing_notification db' later db_user_id route_key 2
       = Some stored).
Proof.
  intros He Hs.
  destruct (notify_unsuppressed format_driver_notification self db now
              driver_id db_user_id order order_db_id route_key group_id
              distance is_admin_extra He Hs) as (db0 & He0 & Hn0 & E).
  rewrite E. clear E.
  pose proof (get_existing_ext db db0 now db_user_id route_key
                (eq_trans He0 (eq_sym He)) Hn0) as Hext.
  destruct (edit_or_send format_driver_notification self db0 now driver_id
              db_user_id order order_db_id route_key group_id distance
              is_admin_extra) as [[db' order'] calls] eqn:E.
  split.
  - intros (n0 & Hin0 & Hf0) Hnz edit Hedit Hok.
    destruct (get_existing_notification db now db_user_id route_key 2)
      as [found|] eqn:Hex.
    + destruct (get_existing_some db now db_user_id route_key found Hex)
        as (Hin & Hf & Hmax).
      assert (Hm : exists handle, on_message_id found = Some handle).
      { destruct Hf as (_ & _ & Hm & _).
        destruct (on_message_id found) as [handle|];
          [exists handle; reflexivity | contradiction]. }
      destruct Hm as [handle Hm].
      assert (Hh : handle <> 0%Z).
      { intros ->. apply (Hnz found Hin). exact Hm. }
      destruct (edit_or_send_edits format_driver_notification self db0 now
                  driver_id db_user_id order order_db_id route_key group_id
                  distance is_admin_extra found handle edit Hext Hm Hh Hedit
                  Hok) as (db1 & order1 & call & E1 & Hc & Hd & Hn1).
      rewrite E in E1. injection E1 as -> -> ->.
      exists found, call. rewrite Hm, Hc, Hn1, Hn0.
      split; [exact Hin|]. split; [exact Hf|]. auto.
    + exfalso. apply (proj1 (get_existing_none db now db_user_id route_key He))
        with (n := n0) in Hex; auto.
  - intros Hnone send Hsend Hok.
    assert (Hex : get_existing_notification db0 now db_user_id route_key 2
                  = None).
    { rewrite Hext.
      apply (get_existing_none db now db_user_id route_key He). exact Hnone. }
    destruct (send_new_sends format_driver_notification self db0 now
                driver_id db_user_id order order_db_id route_key group_id
                distance is_admin_extra [] send He0 Hsend Hok)
      as (db1 & order1 & call & h & E1 & Hd & Hr & Hh & He1 & Hn1).
    assert (E2 : edit_or_send format_driver_notification self db0 now
                   driver_id db_user_id order order_db_id route_key group_id
                   distance is_admin_extra
                 = (db1, order1, [CallSend call])).
    { unfold edit_or_send. rewrite Hex. exact E1. }
    rewrite E in E2. injection E2 as -> -> ->.
    exists call, h. rewrite Hn0 in Hn1.
    split; [exact Hd|]. split; [exact Hr|]. split; [reflexivity|].
    cbv zeta. split; [exact Hn1|].
    intros later Hl.
    apply (stored_found_later db db1 now later db_user_id route_key _ He1 Hn1);
      auto; discriminate.
Qed.

Lemma earlier_fresh_after_an_hour :
  fresh (after_hours 1) 5 sample_route earlier.
Proof.
  unfold fresh. repeat split; discriminate.
Qed.

Lemma not_suppressed_by_flags (db : DB) (now : Clock) (user_id : Z)
    (order : ParsedOrder) (group_id : option Z) :
  engine db = true ->
  is_user_in_quiet_hours db now user_id
  || fst (is_user_busy db now user_id)
  || is_blacklisted db user_id (author_id order) group_id = false ->
  ~ suppressed db now user_id order group_id.
Proof.
  intros He Hf Hs. apply (suppressed_iff db now user_id order group_id He) in Hs.
  congruence.
Qed.

(** An order one hour after the record edits the message 9001 and stores
    nothing; an order three hours after it sends a message and stores the
    handle 9002 that the send returned. *)
Lemma edit_within_two_hours_else_send_witness :
  (let '(db', _, calls) :=
     _notify_driver plain_text (working_bot 9002) notified_db (after_hours 1)
       1005 5 sample_order 2 sample_route (Some sample_group) 10 false in
   exists call, calls = [CallEdit call] /\ edit_message_id call = 9001%Z /\
                order_notifications db' = [earlier]) /\
  (let '(db', _, calls) :=
     _notify_driver plain_text (working_bot 9002) notified_db (after_hours 3)
       1005 5 sample_order 2 sample_route (Some sample_group) 10 false in
   exists call n, calls = [CallSend call] /\
                  order_notifications db' = [earlier; n] /\
                  on_message_id n = Some 9002%Z).
Proof.
  split.
  - pose proof (edit_within_two_hours_else_send plain_text (working_bot 9002)
                  notified_db (after_hours 1) 1005 5 sample_order 2
                  sample_route (Some sample_group) 10 false eq_refl
                  (not_suppressed_by_flags notified_db (after_hours 1) 5
                     sample_order (Some sample_group) eq_refl eq_refl)) as H.
    destruct (_notify_driver plain_text (working_bot 9002) notified_db
                (after_hours 1) 1005 5 sample_order 2 sample_route
                (Some sample_group) 10 false) as [[db' order'] calls].
    destruct H as [H _].
    destruct (H (ex_intro _ earlier
                   (conj (or_introl eq_refl) earlier_fresh_after_an_hour)))
      with (edit := fun _ : EditCall => EditReturned true)
      as (n & call & Hin & _ & _ & Hm & _ & Hc & Hn).
    + intros n [<- | []]. discriminate.
    + reflexivity.
    + discriminate.
    + exists call. destruct Hin as [<- | []].
      repeat split; [exact Hc | | exact Hn].
      simpl in Hm. congruence.
  - pose proof (edit_within_two_hours_else_send plain_text (working_bot 9002)
                  notified_db (after_hours 3) 1005 5 sample_order 2
                  sample_route (Some sample_group) 10 false eq_refl
                  (not_suppressed_by_flags notified_db (after_hours 3) 5
                     sample_order (Some sample_group) eq_refl eq_refl)) as H.
    destruct (_notify_driver plain_text (working_bot 9002) notified_db
                (after_hours 3) 1005 5 sample_order 2 sample_route
                (Some sample_group) 10 false) as [[db' order'] calls].
    destruct H as [_ H].
    destruct H with (send := fun _ : SendCall => SendReturned (Some 9002%Z))
      as (call & h & _ & Hr & Hc & Hn & _).
    + intros n [<- | []] (_ & _ & _ & Hlate). vm_compute in Hlate.
      apply Hlate. reflexivity.
    + reflexivity.
    + intros c. exists 9002%Z. split; [reflexivity | discriminate].
    + exists call. eexists. split; [exact Hc|]. split; [exact Hn|].
      simpl. congruence.
Defined.

(** C1 (as stated) fails for a driver who is busy: the store holds a
    record for the route sent an hour before, with the handle 9001, and
    the order edits nothing and sends nothing. *)
Lemma busy_driver_gets_no_edit :
  (exists n, In n (order_notifications busy_db) /\
             fresh (after_hours 1) 5 sample_route n /\
             on_message_id n = Some 9001%Z) /\
  _notify_driver plain_text (working_bot 9002) busy_db (after_hours 1)
    1005 5 sample_order 2 sample_route (Some sample_group) 10 false
  = (busy_db, sample_order, []).
Proof.
  split.
  - exists earlier. split; [left; reflexivity|].
    split; [exact earlier_fresh_after_an_hour | reflexivity].
  - vm_compute. reflexivity.
Qed.

